(** * xivdyetools-core: scripts/fetch_dye_names.py

    A shallow embedding of the dye-name fetcher: the retrying HTTP client
    [DyeNameFetcher.fetch_name], the per-item loop [fetch_all_languages],
    the input loader [load_dye_data], the CSV writer [generate_csv] and
    [main], followed by the properties the specification states about
    them.

    Python values that travel through the script (item identifiers read
    from the input file, names read from response bodies) are JSON values;
    Python's [None] is [JNull].  The object attributes of [DyeNameFetcher]
    and the traffic on its HTTP session are one explicit [State]; the
    remote endpoint is a function from the number of requests it has
    already received, and the request, to what [session.get] does.
    Calls to [print] are left out, except the warning of
    [load_dye_data]; the text of the URL and the timeout given to
    [session.get] are the same for every request and are not carried. *)

From Stdlib Require Import ZArith String PrimFloat Lia.
From stdpp Require Import base option list gmap strings pretty.
From Equations Require Import Equations.

#[local] Open Scope string_scope.
#[local] Open Scope list_scope.
#[local] Open Scope Z_scope.
#[local] Set Warnings "-register-all".

(** ** Python values *)

Inductive JSON : Type :=
| JNull
| JBool (b : bool)
| JInt (n : Z)
| JFloat (x : float)
| JStr (s : string)
| JArr (items : list JSON)
| JObj (members : gmap string JSON).

(** [bool(v)]: what [if v:] tests. *)
Definition truthy (v : JSON) : bool :=
  match v with
  | JNull => false
  | JBool b => b
  | JInt n => negb (n =? 0)
  | JFloat x => negb (PrimFloat.eqb x 0%float)
  | JStr s => negb (String.eqb s "")
  | JArr items => negb (bool_decide (items = []))
  | JObj members => negb (bool_decide (members = ∅))
  end.

(** Exceptions that leave a function of the script. *)
Inductive Exn : Type :=
| AttributeError
| TypeError
| KeyError
| OSError
| SystemExit (code : Z).

Inductive Result (A : Type) : Type :=
| Ok (a : A)
| Raise (e : Exn).
Arguments Ok {A} a.
Arguments Raise {A} e.

(** [d.get(key, default)]; only a dict has the method. *)
Definition py_get (d : JSON) (key : string) (dflt : JSON) : Result JSON :=
  match d with
  | JObj members => Ok (default dflt (members !! key))
  | _ => Raise AttributeError
  end.

(** [key in container], for a string [key]: a key of a dict, an element of
    a list, a substring of a string; other values are not iterable. *)
Definition py_contains (key : string) (container : JSON) : Result bool :=
  match container with
  | JObj members => Ok (bool_decide (is_Some (members !! key)))
  | JArr items =>
      Ok (existsb (fun x => match x with
                            | JStr s => String.eqb s key
                            | _ => false
                            end) items)
  | JStr s => Ok (bool_decide (is_Some (String.index 0 key s)))
  | _ => Raise TypeError
  end.

(** [container[key]], for a string [key]. *)
Definition py_getitem (container : JSON) (key : string) : Result JSON :=
  match container with
  | JObj members =>
      match members !! key with
      | Some v => Ok v
      | None => Raise KeyError
      end
  | _ => Raise TypeError
  end.

(** ** Configuration *)

Definition LANGUAGES : list string := ["en"; "ja"; "de"; "fr"].
(** The double nearest to [0.1], which is what the literal denotes. *)
Definition REQUEST_DELAY : float := 0x1.999999999999ap-4%float.
Definition MAX_RETRIES : nat := 3.

(** ** The HTTP session *)

(** The URL is [API_BASE_URL/item_id] and the query is [language] and
    [fields=Name]; a request is determined by the two arguments that vary. *)
Record Request : Type := mkRequest {
  req_item_id : JSON;
  req_language : string
}.

(** A response as far as [fetch_name] reads it: the status code, the
    reason phrase and URL that [raise_for_status] puts in its message, and
    the result of [response.json()], which is the decoded body or the message
    of [requests.exceptions.JSONDecodeError]. *)
Record Response : Type := mkResponse {
  status_code : Z;
  reason : string;
  url : string;
  json : string + JSON
}.

(** What [session.get] does: it returns a response, raises
    [requests.exceptions.Timeout], or raises another [RequestException]
    whose [str] is [msg]. *)
Inductive GetOutcome : Type :=
| Responded (response : Response)
| Timeout
| RequestException (msg : string).

(** [response.raise_for_status()]: [Some msg] when it raises [HTTPError]. *)
Definition raise_for_status (response : Response) : option string :=
  let code := status_code response in
  if (400 <=? code) && (code <? 500) then
    Some (pretty code +:+ " Client Error: " +:+ reason response
            +:+ " for url: " +:+ url response)
  else if (500 <=? code) && (code <? 600) then
    Some (pretty code +:+ " Server Error: " +:+ reason response
            +:+ " for url: " +:+ url response)
  else None.

(** [time.sleep] takes the float [REQUEST_DELAY] or the int [wait_time]. *)
Inductive Seconds : Type :=
| SecondsFloat (x : float)
| SecondsInt (n : Z).

Inductive Event : Type :=
| Sleep (duration : Seconds)
| Get (request : Request).

(** ** The fetcher *)

Definition Failure : Type := JSON * string * string.

(** The attributes of [DyeNameFetcher], and for [self.session] the number
    of requests sent over it and the trace of sleeps and requests. *)
Record State : Type := mkState {
  failed_requests : list Failure;
  total_requests : Z;
  successful_requests : Z;
  sent : nat;
  trace : list Event
}.

(** [DyeNameFetcher.__init__] *)
Definition init : State := mkState [] 0 0 0%nat [].

Definition time_sleep (duration : Seconds) (st : State) : State :=
  mkState (failed_requests st) (total_requests st) (successful_requests st)
          (sent st) (trace st ++ [Sleep duration]).

Definition count_request (st : State) : State :=
  mkState (failed_requests st) (total_requests st + 1) (successful_requests st)
          (sent st) (trace st).

Definition count_success (st : State) : State :=
  mkState (failed_requests st) (total_requests st) (successful_requests st + 1)
          (sent st) (trace st).

Definition record_failure (entry : Failure) (st : State) : State :=
  mkState (failed_requests st ++ [entry]) (total_requests st)
          (successful_requests st) (sent st) (trace st).

(** *** Sequencing calls that read and change the state and may raise *)

Definition Py (A : Type) : Type := State -> Result A * State.

#[local] Instance Py_ret : MRet Py := fun A a st => (Ok a, st).

#[local] Instance Py_bind : MBind Py := fun A B k m st =>
  match m st with
  | (Ok a, st') => k a st'
  | (Raise e, st') => (Raise e, st')
  end.

(** ** Loading the input *)

(** What [load_dye_data] finds at [COLORS_JSON_PATH]. *)
Inductive InputFile : Type :=
| NoFile
| Unreadable
| NotJSON
| Content (dyes : JSON).

(** The loop over [dyes]; [warned] collects the entries the warning is
    printed for. *)
Fixpoint extract_item_ids (dyes item_ids warned : list JSON)
    : Result (list JSON) * list JSON :=
  match dyes with
  | [] => (Ok item_ids, warned)
  | dye :: dyes' =>
      match py_contains "itemID" dye with
      | Raise e => (Raise e, warned)
      | Ok false => extract_item_ids dyes' item_ids (warned ++ [dye])
      | Ok true =>
          match py_getitem dye "itemID" with
          | Raise e => (Raise e, warned)
          | Ok v => extract_item_ids dyes' (item_ids ++ [v]) warned
          end
      end
  end.

Definition load_dye_data (file : InputFile) : Result (list JSON) * list JSON :=
  match file with
  | NoFile => (Raise (SystemExit 1), [])
  | Unreadable => (Raise (SystemExit 1), [])
  | NotJSON => (Raise (SystemExit 1), [])
  | Content (JArr dyes) => extract_item_ids dyes [] []
  | Content _ => (Raise (SystemExit 1), [])
  end.

(** ** Records, lines and runs *)

(** An element of [dye_data]. *)
Record Dye : Type := mkDye {
  itemID : JSON;
  names : gmap string JSON
}.

(** The header line. *)
Definition fieldnames : list string :=
  ["itemID"; "English Name"; "Japanese Name"; "German Name"; "French Name"].

(** The [row] dict of [generate_csv], in the order of [fieldnames]. *)
Definition row (dye : Dye) : list JSON :=
  [ itemID dye;
    default (JStr "") (names dye !! "en");
    default (JStr "") (names dye !! "ja");
    default (JStr "") (names dye !! "de");
    default (JStr "") (names dye !! "fr") ].

(** Whether the output directory and file can be written. *)
Inductive OutputDir : Type :=
| Writable
| MkdirFails
| WriteFails.

(** A run of the script: the exception that ends it ([sys.exit] raises
    [SystemExit]), the entries warned about, the CSV file if it was written,
    and the fetcher if it was created. *)
Record Run : Type := mkRun {
  ended_by : Exn;
  warnings : list JSON;
  csv_file : option (list (list string));
  fetcher : option State
}.

(** The exit status of the process: the code given to [sys.exit], and 1
    after an exception nobody caught. *)
Definition exit_status (e : Exn) : Z :=
  match e with
  | SystemExit code => code
  | _ => 1
  end.

(** ** Notions used in the statements *)

(** The sleep before every request, and the sleep before a retry. *)
Definition pacing : Event := Sleep (SecondsFloat REQUEST_DELAY).
Definition backoff (seconds : Z) : Event := Sleep (SecondsInt seconds).

(** The state after the pacing sleep, the count and the request of one
    attempt. *)
Definition attempt (request : Request) (st : State) : State :=
  mkState (failed_requests st) (total_requests st + 1) (successful_requests st)
          (S (sent st))
          (trace st ++ [pacing; Get request]).

(** The number of requests in a trace. *)
Fixpoint requests_in (tr : list Event) : nat :=
  match tr with
  | [] => 0%nat
  | Get _ :: tr' => S (requests_in tr')
  | Sleep _ :: tr' => requests_in tr'
  end.

(** A body that [fetch_name] can read: a dict whose "fields" member, if
    there is one, is a dict. *)
Definition readable (response : Response) : Prop :=
  forall data, json response = inr data ->
    exists body, data = JObj body
      /\ forall v, body !! "fields" = Some v -> exists fields, v = JObj fields.

(** A record of [dye_data] with a name, possibly [None], under each
    configured language and under nothing else. *)
Definition complete (dye : Dye) : Prop :=
  forall lang : string, lang ∈ LANGUAGES <-> is_Some (names dye !! lang).

(** The member [key] of a JSON object. *)
Definition member (key : string) (dye : JSON) : option JSON :=
  match dye with
  | JObj members => members !! key
  | _ => None
  end.

(** A value that [json.load] returns as a dict. *)
Definition is_object (v : JSON) : Prop := exists members, v = JObj members.

(** The events of [n] attempts at one request: each attempt is the pacing
    sleep and the request, and sleeps of whole seconds may stand between
    two attempts. *)
Inductive attempts (request : Request) : nat -> list Event -> Prop :=
| attempts_none : attempts request 0 []
| attempts_backoff seconds n tr :
    attempts request n tr -> attempts request n (backoff seconds :: tr)
| attempts_get n tr :
    attempts request n tr ->
    attempts request (S n) (pacing :: Get request :: tr).

(** A trace in which the pacing sleep stands directly before every
    request. *)
Inductive paced : list Event -> Prop :=
| paced_nil : paced []
| paced_sleep duration tr : paced tr -> paced (Sleep duration :: tr)
| paced_get request tr : paced tr -> paced (pacing :: Get request :: tr).

(** What a call of [fetch_name] for [item_id] and [language] leaves in the
    counters and the failure list, by its result: a name and one success
    more, [None] and one failure entry more, or the [AttributeError] and
    neither. *)
Definition outcome (item_id : JSON) (language : string) (st st' : State)
    (res : Result JSON) : Prop :=
  (exists name,
      res = Ok name /\ truthy name = true
      /\ failed_requests st' = failed_requests st
      /\ successful_requests st' = successful_requests st + 1)
  \/ (exists why,
        res = Ok JNull
        /\ failed_requests st'
           = failed_requests st ++ [(item_id, language, why)]
        /\ successful_requests st' = successful_requests st)
  \/ (res = Raise AttributeError
      /\ failed_requests st' = failed_requests st
      /\ successful_requests st' = successful_requests st).

(** A record with a non-empty name under every configured language. *)
Definition all_named (dye : Dye) : Prop :=
  forall lang : string, lang ∈ LANGUAGES ->
    exists name, names dye !! lang = Some name /\ truthy name = true.

(** The events of a batch in which every request is answered at once: for
    each item in turn, and for each language in the order of [LANGUAGES],
    the pacing sleep and the request. *)
Definition one_request_each (item_ids : list JSON) : list Event :=
  item_id ← item_ids;
  language ← LANGUAGES;
  [pacing; Get (mkRequest item_id language)].

(** ** Simulated endpoints *)

(** A 200 response with the given Name under "fields". *)
Definition named (name : JSON) : Response :=
  mkResponse 200 "OK" "https://v2.xivapi.com/api/sheet/Item/5729"
    (inr (JObj {[ "fields" := JObj {[ "Name" := name ]} ]})).

(** A response with no JSON body. *)
Definition status_only (code : Z) (phrase : string) : Response :=
  mkResponse code phrase "https://v2.xivapi.com/api/sheet/Item/5729"
    (inl "Expecting value: line 1 column 1 (char 0)").

(** 429 for the first two requests, then the name. *)
Definition limited_twice : nat -> Request -> GetOutcome :=
  fun n _ =>
    if (n <? 2)%nat then Responded (status_only 429 "Too Many Requests")
    else Responded (named (JStr "Snow White")).

(** The same outcome for every request. *)
Definition always (outcome : GetOutcome) : nat -> Request -> GetOutcome :=
  fun _ _ => outcome.

(** The English name only; the other languages have an empty "fields". *)
Definition english_only : nat -> Request -> GetOutcome :=
  fun _ request =>
    if String.eqb (req_language request) "en"
    then Responded (named (JStr "Snow White"))
    else Responded
           (mkResponse 200 "OK" "https://v2.xivapi.com/api/sheet/Item/5729"
              (inr (JObj {[ "fields" := JObj ∅ ]}))).

(** A stand-in for [repr]; the runs below print no float, list or dict. *)
Definition no_repr : JSON -> string := fun _ => "".

(** The request for the English name of item 5729. *)
Definition snow_white : Request := mkRequest (JInt 5729) "en".

(** An input array whose second entry has no itemID. *)
Definition three_entries : list JSON :=
  [ JObj {[ "itemID" := JInt 5729 ]};
    JObj {[ "name" := JStr "Soot Black" ]};
    JObj {[ "itemID" := JInt 5730 ]} ].

(** An input array with a list and a string among its elements. *)
Definition mixed_entries : list JSON :=
  [ JObj {[ "itemID" := JInt 5729 ]}; JArr []; JStr "Rose Pink" ].

Section Script.

(** The remote endpoint: what the [n]-th request of the session (counted
    from 0) meets. *)
Variable endpoint : nat -> Request -> GetOutcome.

Definition session_get (request : Request) (st : State) : GetOutcome * State :=
  (endpoint (sent st) request,
   mkState (failed_requests st) (total_requests st) (successful_requests st)
           (S (sent st)) (trace st ++ [Get request])).

Equations? fetch_name (item_id : JSON) (language : string) (retry_count : nat)
    (st : State) : Result JSON * State
    by wf (MAX_RETRIES - retry_count)%nat lt :=
  fetch_name item_id language retry_count st :=
    let st := time_sleep (SecondsFloat REQUEST_DELAY) st in
    let st := count_request st in
    match session_get (mkRequest item_id language) st with
    | (Responded response, st) =>
        if status_code response =? 429 then
          match lt_dec retry_count MAX_RETRIES with
          | left _ =>
              let wait_time := 2 ^ Z.of_nat retry_count in
              let st := time_sleep (SecondsInt wait_time) st in
              fetch_name item_id language (retry_count + 1)%nat st
          | right _ =>
              (Ok JNull, record_failure (item_id, language, "Rate limit") st)
          end
        else if status_code response =? 404 then
          (Ok JNull, record_failure (item_id, language, "Not found") st)
        else if 500 <=? status_code response then
          match lt_dec retry_count MAX_RETRIES with
          | left _ =>
              let wait_time := 2 ^ Z.of_nat retry_count in
              let st := time_sleep (SecondsInt wait_time) st in
              fetch_name item_id language (retry_count + 1)%nat st
          | right _ =>
              (Ok JNull,
               record_failure
                 (item_id, language,
                  "Server error " +:+ pretty (status_code response)) st)
          end
        else
          match raise_for_status response with
          | Some msg => (Ok JNull, record_failure (item_id, language, msg) st)
          | None =>
              match json response with
              | inl msg =>
                  (Ok JNull, record_failure (item_id, language, msg) st)
              | inr data =>
                  match py_get data "fields" (JObj ∅) with
                  | Raise e => (Raise e, st)
                  | Ok fields =>
                      match py_get fields "Name" JNull with
                      | Raise e => (Raise e, st)
                      | Ok name =>
                          if truthy name then (Ok name, count_success st)
                          else
                            (Ok JNull,
                             record_failure
                               (item_id, language, "Missing Name field") st)
                      end
                  end
              end
          end
    | (Timeout, st) =>
        match lt_dec retry_count MAX_RETRIES with
        | left _ => fetch_name item_id language (retry_count + 1)%nat st
        | right _ =>
            (Ok JNull, record_failure (item_id, language, "Timeout") st)
        end
    | (RequestException msg, st) =>
        (Ok JNull, record_failure (item_id, language, msg) st)
    end.
Proof. all: unfold MAX_RETRIES in *; lia. Qed.

(** [for lang in langs: names[lang] = self.fetch_name(item_id, lang)] *)
Fixpoint fetch_languages (item_id : JSON) (langs : list string)
    (names : gmap string JSON) : Py (gmap string JSON) :=
  match langs with
  | [] => mret names
  | lang :: langs' =>
      name ← fetch_name item_id lang 0%nat;
      fetch_languages item_id langs' (<[lang := name]> names)
  end.

Definition fetch_all_languages (item_id : JSON) : Py (gmap string JSON) :=
  fetch_languages item_id LANGUAGES ∅.

(** [for item_id in item_ids: dye_data.append(...)] *)
Fixpoint fetch_dyes (item_ids : list JSON) (dye_data : list Dye)
    : Py (list Dye) :=
  match item_ids with
  | [] => mret dye_data
  | item_id :: item_ids' =>
      names ← fetch_all_languages item_id;
      fetch_dyes item_ids' (dye_data ++ [mkDye item_id names])
  end.

(** ** Writing the CSV *)

Section Output.

(** [repr] of a float, a list or a dict, which is what [str] is on them. *)
Variable py_repr : JSON -> string.

(** The text [csv.writer] writes for a field, before the dialect's quoting:
    nothing for [None], a string as it is, [str] of anything else. *)
Definition csv_field (v : JSON) : string :=
  match v with
  | JNull => ""
  | JStr s => s
  | JInt n => pretty n
  | JBool true => "True"
  | JBool false => "False"
  | _ => py_repr v
  end.

(** The file is a list of records, each a list of fields. [mkdir] is
    outside the [try]; a failure inside it ends in [sys.exit(1)]. *)
Definition generate_csv (out : OutputDir) (dye_data : list Dye)
    : Result unit * option (list (list string)) :=
  match out with
  | MkdirFails => (Raise OSError, None)
  | WriteFails => (Raise (SystemExit 1), None)
  | Writable =>
      (Ok tt,
       Some (fieldnames :: map (fun dye => map csv_field (row dye)) dye_data))
  end.

(** ** main *)

Definition main (file : InputFile) (out : OutputDir) : Run :=
  match load_dye_data file with
  | (Raise e, warned) => mkRun e warned None None
  | (Ok item_ids, warned) =>
      match fetch_dyes item_ids [] init with
      | (Raise e, st) => mkRun e warned None (Some st)
      | (Ok dye_data, st) =>
          match generate_csv out dye_data with
          | (Raise e, file) => mkRun e warned file (Some st)
          | (Ok _, file) =>
              mkRun (SystemExit
                       (if (Z.of_nat (length (failed_requests st)) =? 0)
                        then 0 else 1))
                    warned file (Some st)
          end
      end
  end.

(** The column of a language in the line of a record, in the words of the
    specification: the name, or nothing when there is none. *)
Definition name_column (dye : Dye) (lang : string) : string :=
  match names dye !! lang with
  | None | Some JNull => ""
  | Some name => csv_field name
  end.

End Output.

(** ** One attempt of [fetch_name] *)

Lemma attempt_session_get request st :
  session_get request
    (count_request (time_sleep (SecondsFloat REQUEST_DELAY) st))
  = (endpoint (sent st) request, attempt request st).
Proof.
  unfold session_get, count_request, time_sleep, attempt; cbn.
  by rewrite <- app_assoc.
Qed.

Ltac fetch_step :=
  rewrite fetch_name_equation_1; cbn zeta; rewrite attempt_session_get.

Lemma fetch_name_timeout_retry item_id language retry_count st :
  endpoint (sent st) (mkRequest item_id language) = Timeout ->
  (retry_count < MAX_RETRIES)%nat ->
  fetch_name item_id language retry_count st
  = fetch_name item_id language (retry_count + 1)
      (attempt (mkRequest item_id language) st).
Proof.
  intros Hget Hlt. fetch_step. rewrite Hget.
  destruct (lt_dec retry_count MAX_RETRIES); [done | lia].
Qed.

Lemma fetch_name_timeout_last item_id language retry_count st :
  endpoint (sent st) (mkRequest item_id language) = Timeout ->
  (MAX_RETRIES <= retry_count)%nat ->
  fetch_name item_id language retry_count st
  = (Ok JNull,
     record_failure (item_id, language, "Timeout")
       (attempt (mkRequest item_id language) st)).
Proof.
  intros Hget Hge. fetch_step. rewrite Hget.
  destruct (lt_dec retry_count MAX_RETRIES); [lia | done].
Qed.

Lemma fetch_name_429_retry item_id language retry_count st response :
  endpoint (sent st) (mkRequest item_id language) = Responded response ->
  status_code response = 429 ->
  (retry_count < MAX_RETRIES)%nat ->
  fetch_name item_id language retry_count st
  = fetch_name item_id language (retry_count + 1)
      (time_sleep (SecondsInt (2 ^ Z.of_nat retry_count))
         (attempt (mkRequest item_id language) st)).
Proof.
  intros Hget Hcode Hlt. fetch_step. rewrite Hget, Hcode. cbn.
  destruct (lt_dec retry_count MAX_RETRIES); [done | lia].
Qed.

Lemma fetch_name_5xx_retry item_id language retry_count st response :
  endpoint (sent st) (mkRequest item_id language) = Responded response ->
  500 <= status_code response ->
  (retry_count < MAX_RETRIES)%nat ->
  fetch_name item_id language retry_count st
  = fetch_name item_id language (retry_count + 1)
      (time_sleep (SecondsInt (2 ^ Z.of_nat retry_count))
         (attempt (mkRequest item_id language) st)).
Proof.
  intros Hget Hcode Hlt. fetch_step. rewrite Hget.
  destruct (status_code response =? 429) eqn:H429.
  - destruct (lt_dec retry_count MAX_RETRIES); [done | lia].
  - destruct (status_code response =? 404) eqn:H404; [lia |].
    destruct (500 <=? status_code response) eqn:H500; [| lia].
    destruct (lt_dec retry_count MAX_RETRIES); [done | lia].
Qed.

Lemma fetch_name_5xx_last item_id language retry_count st response :
  endpoint (sent st) (mkRequest item_id language) = Responded response ->
  500 <= status_code response ->
  (MAX_RETRIES <= retry_count)%nat ->
  fetch_name item_id language retry_count st
  = (Ok JNull,
     record_failure
       (item_id, language, "Server error " +:+ pretty (status_code response))
       (attempt (mkRequest item_id language) st)).
Proof.
  intros Hget Hcode Hge. fetch_step. rewrite Hget.
  destruct (status_code response =? 429) eqn:H429; [lia |].
  destruct (status_code response =? 404) eqn:H404; [lia |].
  destruct (500 <=? status_code response) eqn:H500; [| lia].
  destruct (lt_dec retry_count MAX_RETRIES); [lia | done].
Qed.

(** A response with a status from 200 to 299 reaches the extraction of
    the name. *)
Lemma fetch_name_2xx item_id language retry_count st response :
  endpoint (sent st) (mkRequest item_id language) = Responded response ->
  200 <= status_code response < 300 ->
  fetch_name item_id language retry_count st
  = let st := attempt (mkRequest item_id language) st in
    match json response with
    | inl msg => (Ok JNull, record_failure (item_id, language, msg) st)
    | inr data =>
        match py_get data "fields" (JObj ∅) with
        | Raise e => (Raise e, st)
        | Ok fields =>
            match py_get fields "Name" JNull with
            | Raise e => (Raise e, st)
            | Ok name =>
                if truthy name then (Ok name, count_success st)
                else
                  (Ok JNull,
                   record_failure (item_id, language, "Missing Name field") st)
            end
        end
    end.
Proof.
  intros Hget Hcode. fetch_step. rewrite Hget.
  destruct (status_code response =? 429) eqn:H429; [lia |].
  destruct (status_code response =? 404) eqn:H404; [lia |].
  destruct (500 <=? status_code response) eqn:H500; [lia |].
  unfold raise_for_status. cbn zeta.
  destruct (400 <=? status_code response) eqn:H400; [lia |].
  destruct (500 <=? status_code response) eqn:H500'; [lia |].
  reflexivity.
Qed.

Lemma requests_in_app tr1 tr2 :
  requests_in (tr1 ++ tr2) = (requests_in tr1 + requests_in tr2)%nat.
Proof.
  induction tr1 as [| [d | r] tr1 IH]; cbn; [done | done |].
  by rewrite IH.
Qed.

(** Side conditions of the one-step lemmas. *)
Ltac retry_side := first [ done | lia | unfold MAX_RETRIES; lia ].

(** Side conditions on the counters after one attempt. *)
Ltac counted_by Hsleep Hattempt :=
  first [ assumption | apply Hsleep | apply Hattempt | cbn; lia ].

(** Closes an equation between two states built by the same steps. *)
Ltac same_state :=
  unfold record_failure, count_success, time_sleep, attempt, pacing, backoff;
  cbn [failed_requests total_requests successful_requests sent trace];
  f_equal;
  first [ reflexivity | lia | repeat rewrite <- app_assoc; reflexivity ].

(** ** The retry client *)

(** C1. When the endpoint answers 429 to the first two attempts and then
    answers with a 2xx response whose body has a non-empty Name under
    "fields", [fetch_name] sleeps 1 second before the second attempt and 2
    seconds before the third, returns the name, and has counted exactly
    three requests and one success; nothing is added to the failures. *)
Theorem fetch_name_429_twice_then_name
    item_id language st r1 r2 r3 body fields name :
  endpoint (sent st) (mkRequest item_id language) = Responded r1 ->
  status_code r1 = 429 ->
  endpoint (S (sent st)) (mkRequest item_id language) = Responded r2 ->
  status_code r2 = 429 ->
  endpoint (S (S (sent st))) (mkRequest item_id language) = Responded r3 ->
  200 <= status_code r3 < 300 ->
  json r3 = inr (JObj body) ->
  body !! "fields" = Some (JObj fields) ->
  fields !! "Name" = Some name ->
  truthy name = true ->
  fetch_name item_id language 0 st
  = (Ok name,
     mkState (failed_requests st) (total_requests st + 3)
       (successful_requests st + 1) (sent st + 3)
       (trace st ++
          [ pacing; Get (mkRequest item_id language);
            backoff 1;
            pacing; Get (mkRequest item_id language);
            backoff 2;
            pacing; Get (mkRequest item_id language) ])).
Proof.
  intros Hget1 Hcode1 Hget2 Hcode2 Hget3 Hcode3 Hjson Hfields Hname Htruthy.
  rewrite (fetch_name_429_retry _ _ _ _ r1) by retry_side.
  rewrite (fetch_name_429_retry _ _ _ _ r2) by retry_side.
  rewrite (fetch_name_2xx _ _ _ _ r3) by done.
  cbn zeta. rewrite Hjson. cbn [py_get]. rewrite Hfields.
  cbn [default from_option id py_get]. rewrite Hname.
  cbn [default from_option id]. rewrite Htruthy.
  f_equal. same_state.
Qed.

(** C2. When the endpoint answers 500 to every attempt, [fetch_name] makes
    the first attempt and [MAX_RETRIES] retries, sleeping 1, 2 and 4 seconds
    ([2 ** retry_count]) before them, then returns [None] and has appended
    the one entry "Server error 500" to the failures. *)
Theorem fetch_name_always_500 item_id language st :
  (forall k : nat, exists response,
      endpoint (sent st + k)%nat (mkRequest item_id language)
      = Responded response
      /\ status_code response = 500) ->
  fetch_name item_id language 0 st
  = (Ok JNull,
     mkState (failed_requests st ++ [(item_id, language, "Server error 500")])
       (total_requests st + 4) (successful_requests st) (sent st + 4)
       (trace st ++
          [ pacing; Get (mkRequest item_id language);
            backoff 1;
            pacing; Get (mkRequest item_id language);
            backoff 2;
            pacing; Get (mkRequest item_id language);
            backoff 4;
            pacing; Get (mkRequest item_id language) ])).
Proof.
  intros Hall.
  destruct (Hall 0%nat) as (r0 & Hget0 & Hcode0).
  destruct (Hall 1%nat) as (r1 & Hget1 & Hcode1).
  destruct (Hall 2%nat) as (r2 & Hget2 & Hcode2).
  destruct (Hall 3%nat) as (r3 & Hget3 & Hcode3).
  replace (sent st + 0)%nat with (sent st) in Hget0 by lia.
  replace (sent st + 1)%nat with (S (sent st)) in Hget1 by lia.
  replace (sent st + 2)%nat with (S (S (sent st))) in Hget2 by lia.
  replace (sent st + 3)%nat with (S (S (S (sent st)))) in Hget3 by lia.
  rewrite (fetch_name_5xx_retry _ _ _ _ r0) by retry_side.
  rewrite (fetch_name_5xx_retry _ _ _ _ r1) by retry_side.
  rewrite (fetch_name_5xx_retry _ _ _ _ r2) by retry_side.
  rewrite (fetch_name_5xx_last _ _ _ _ r3) by retry_side.
  rewrite Hcode3. f_equal. same_state.
Qed.

(** C4. When the endpoint answers 404, [fetch_name] makes that one request
    and no other, appends the one entry "Not found" to the failures and
    returns [None], whatever the retry count. *)
Theorem fetch_name_404 item_id language retry_count st response :
  endpoint (sent st) (mkRequest item_id language) = Responded response ->
  status_code response = 404 ->
  fetch_name item_id language retry_count st
  = (Ok JNull,
     mkState (failed_requests st ++ [(item_id, language, "Not found")])
       (total_requests st + 1) (successful_requests st) (sent st + 1)
       (trace st ++
          [ pacing; Get (mkRequest item_id language) ])).
Proof.
  intros Hget Hcode. fetch_step. rewrite Hget, Hcode. cbn.
  f_equal. same_state.
Qed.

(** C5. When every attempt ends in a timeout, [fetch_name] makes the first
    attempt and [MAX_RETRIES] retries, as many as for 429 and 5xx, with no
    sleep between them other than the pacing delay before each request; it
    then appends the one entry "Timeout" to the failures and returns
    [None]. *)
Theorem fetch_name_always_timeout item_id language st :
  (forall k : nat,
      endpoint (sent st + k)%nat (mkRequest item_id language) = Timeout) ->
  fetch_name item_id language 0 st
  = (Ok JNull,
     mkState (failed_requests st ++ [(item_id, language, "Timeout")])
       (total_requests st + 4) (successful_requests st) (sent st + 4)
       (trace st ++
          [ pacing; Get (mkRequest item_id language);
            pacing; Get (mkRequest item_id language);
            pacing; Get (mkRequest item_id language);
            pacing; Get (mkRequest item_id language) ])).
Proof.
  intros Hall.
  pose proof (Hall 0%nat) as Hget0. pose proof (Hall 1%nat) as Hget1.
  pose proof (Hall 2%nat) as Hget2. pose proof (Hall 3%nat) as Hget3.
  replace (sent st + 0)%nat with (sent st) in Hget0 by lia.
  replace (sent st + 1)%nat with (S (sent st)) in Hget1 by lia.
  replace (sent st + 2)%nat with (S (S (sent st))) in Hget2 by lia.
  replace (sent st + 3)%nat with (S (S (S (sent st)))) in Hget3 by lia.
  rewrite fetch_name_timeout_retry by retry_side.
  rewrite fetch_name_timeout_retry by retry_side.
  rewrite fetch_name_timeout_retry by retry_side.
  rewrite fetch_name_timeout_last by retry_side.
  f_equal. same_state.
Qed.

(** C10. A 2xx response whose "fields" object maps "Name" to the empty
    string is handled as one whose "fields" object has no "Name": in both
    cases [fetch_name] returns [None], appends the entry "Missing Name
    field" to the failures and leaves the success counter as it was. *)
Theorem fetch_name_empty_name
    item_id language retry_count st response body fields :
  endpoint (sent st) (mkRequest item_id language) = Responded response ->
  200 <= status_code response < 300 ->
  json response = inr (JObj body) ->
  body !! "fields" = Some (JObj fields) ->
  fields !! "Name" = Some (JStr "") \/ fields !! "Name" = None ->
  fetch_name item_id language retry_count st
  = (Ok JNull,
     mkState
       (failed_requests st ++ [(item_id, language, "Missing Name field")])
       (total_requests st + 1) (successful_requests st) (sent st + 1)
       (trace st ++
          [ pacing; Get (mkRequest item_id language) ])).
Proof.
  intros Hget Hcode Hjson Hfields Hname.
  rewrite (fetch_name_2xx _ _ _ _ response) by done.
  cbn zeta. rewrite Hjson. cbn [py_get]. rewrite Hfields.
  cbn [default from_option id py_get].
  destruct Hname as [-> | ->]; cbn; f_equal; same_state.
Qed.

(** C3. [fetch_name] returns for every endpoint, and a call makes at least
    one and at most [1 + (MAX_RETRIES - retry_count)] requests, hence at
    most 4 from the retry count 0 of a caller: each recursive call is made
    under [retry_count < MAX_RETRIES] with [retry_count + 1].  The requests
    are counted in the trace, in the session and in [total_requests]. *)
Theorem fetch_name_bounded item_id language retry_count st :
  exists result st' (n : nat),
    fetch_name item_id language retry_count st = (result, st')
    /\ (1 <= n <= 1 + (MAX_RETRIES - retry_count))%nat
    /\ (n <= 1 + MAX_RETRIES)%nat
    /\ requests_in (trace st') = (requests_in (trace st) + n)%nat
    /\ sent st' = (sent st + n)%nat
    /\ total_requests st' = total_requests st + Z.of_nat n.
Proof.
  remember (MAX_RETRIES - retry_count)%nat as k eqn:Hk.
  revert retry_count st Hk.
  induction k as [k IH] using lt_wf_ind. intros retry_count st Hk.
  assert (Hlast : forall entry (res : Result JSON),
    exists result st' (n : nat),
      (res, record_failure entry (attempt (mkRequest item_id language) st))
      = (result, st')
      /\ (1 <= n <= 1 + k)%nat /\ (n <= 1 + MAX_RETRIES)%nat
      /\ requests_in (trace st') = (requests_in (trace st) + n)%nat
      /\ sent st' = (sent st + n)%nat
      /\ total_requests st' = total_requests st + Z.of_nat n).
  { intros entry res. eexists _, _, 1%nat. split; [reflexivity |].
    cbn. rewrite requests_in_app. cbn. unfold MAX_RETRIES. lia. }
  assert (Hretry : forall st1,
    (retry_count < MAX_RETRIES)%nat ->
    requests_in (trace st1) = (requests_in (trace st) + 1)%nat ->
    sent st1 = (sent st + 1)%nat ->
    total_requests st1 = total_requests st + 1 ->
    exists result st' (n : nat),
      fetch_name item_id language (retry_count + 1) st1 = (result, st')
      /\ (1 <= n <= 1 + k)%nat /\ (n <= 1 + MAX_RETRIES)%nat
      /\ requests_in (trace st') = (requests_in (trace st) + n)%nat
      /\ sent st' = (sent st + n)%nat
      /\ total_requests st' = total_requests st + Z.of_nat n).
  { intros st1 Hlt Htr Hsent Htotal.
    destruct (IH (MAX_RETRIES - (retry_count + 1))%nat ltac:(lia)
                (retry_count + 1)%nat st1 eq_refl)
      as (result & st' & n & Hcall & Hn & Hn' & Htr' & Hsent' & Htotal').
    exists result, st', (S n). split; [exact Hcall |].
    unfold MAX_RETRIES in *. lia. }
  assert (Hsleep : forall d,
    requests_in (trace (time_sleep d (attempt (mkRequest item_id language) st)))
    = (requests_in (trace st) + 1)%nat).
  { intros d. cbn. rewrite !requests_in_app. cbn. lia. }
  assert (Hattempt :
    requests_in (trace (attempt (mkRequest item_id language) st))
    = (requests_in (trace st) + 1)%nat).
  { cbn. rewrite requests_in_app. cbn. lia. }
  fetch_step.
  destruct (endpoint (sent st) (mkRequest item_id language))
    as [response | | msg].
  - destruct (status_code response =? 429).
    { destruct (lt_dec retry_count MAX_RETRIES) as [Hlt | Hge];
        [apply Hretry; counted_by Hsleep Hattempt | apply Hlast]. }
    destruct (status_code response =? 404); [apply Hlast |].
    destruct (500 <=? status_code response).
    { destruct (lt_dec retry_count MAX_RETRIES) as [Hlt | Hge];
        [apply Hretry; counted_by Hsleep Hattempt | apply Hlast]. }
    destruct (raise_for_status response); [apply Hlast |].
    destruct (json response) as [msg | data]; [apply Hlast |].
    assert (Hplain : forall (res : Result JSON) st1,
      requests_in (trace st1) = (requests_in (trace st) + 1)%nat ->
      sent st1 = (sent st + 1)%nat ->
      total_requests st1 = total_requests st + 1 ->
      exists result st' (n : nat),
        (res, st1) = (result, st')
        /\ (1 <= n <= 1 + k)%nat /\ (n <= 1 + MAX_RETRIES)%nat
        /\ requests_in (trace st') = (requests_in (trace st) + n)%nat
        /\ sent st' = (sent st + n)%nat
        /\ total_requests st' = total_requests st + Z.of_nat n).
    { intros res st1 Htr Hsent Htotal. exists res, st1, 1%nat.
      split; [reflexivity |]. unfold MAX_RETRIES. lia. }
    destruct (py_get data "fields" (JObj ∅)) as [fields | e];
      [| apply Hplain; counted_by Hsleep Hattempt].
    destruct (py_get fields "Name" JNull) as [name | e];
      [| apply Hplain; counted_by Hsleep Hattempt].
    destruct (truthy name);
      [apply Hplain; counted_by Hsleep Hattempt | apply Hlast].
  - destruct (lt_dec retry_count MAX_RETRIES) as [Hlt | Hge];
      [apply Hretry; counted_by Hsleep Hattempt | apply Hlast].
  - apply Hlast.
Qed.

Lemma py_get_raises d key dflt e :
  py_get d key dflt = Raise e -> e = AttributeError.
Proof. destruct d; cbn; congruence. Qed.

(** The only exception that leaves [fetch_name] is the [AttributeError] of
    [.get] on a body, or a "fields" member, that is not a dict. *)
Lemma fetch_name_raises item_id language retry_count st e st' :
  fetch_name item_id language retry_count st = (Raise e, st') ->
  e = AttributeError.
Proof.
  funelim (fetch_name item_id language retry_count st).
  rewrite attempt_session_get.
  destruct (endpoint (sent st) (mkRequest item_id language))
    as [response | | msg]; try congruence.
  - destruct (status_code response =? 429).
    { destruct (lt_dec retry_count MAX_RETRIES) as [Hlt | Hge]; [| congruence].
      intros Hcall. exact (H Timeout _ response Hlt _ _ Hcall). }
    destruct (status_code response =? 404); [congruence |].
    destruct (500 <=? status_code response).
    { destruct (lt_dec retry_count MAX_RETRIES) as [Hlt | Hge]; [| congruence].
      intros Hcall. exact (H Timeout _ response Hlt _ _ Hcall). }
    destruct (raise_for_status response); [congruence |].
    destruct (json response) as [msg | data]; [congruence |].
    destruct (py_get data "fields" (JObj ∅)) as [fields | e1] eqn:Hfields.
    + destruct (py_get fields "Name" JNull) as [name | e2] eqn:Hname.
      * destruct (truthy name); congruence.
      * intros [= <- _]. eauto using py_get_raises.
    + intros [= <- _]. eauto using py_get_raises.
  - destruct (lt_dec retry_count MAX_RETRIES) as [Hlt | Hge]; [| congruence].
    intros Hcall. exact (H0 Timeout _ Hlt _ _ Hcall).
Qed.

(** When every body is readable, [fetch_name] returns a value. *)
Lemma fetch_name_returns item_id language retry_count st :
  (forall n request response,
      endpoint n request = Responded response -> readable response) ->
  exists v st', fetch_name item_id language retry_count st = (Ok v, st').
Proof.
  intros Hreadable.
  funelim (fetch_name item_id language retry_count st).
  rewrite attempt_session_get.
  destruct (endpoint (sent st) (mkRequest item_id language))
    as [response | | msg] eqn:Hget; [| | by eauto].
  - destruct (status_code response =? 429).
    { destruct (lt_dec retry_count MAX_RETRIES) as [Hlt | Hge]; [| by eauto].
      exact (H Timeout _ response Hlt Hreadable). }
    destruct (status_code response =? 404); [by eauto |].
    destruct (500 <=? status_code response).
    { destruct (lt_dec retry_count MAX_RETRIES) as [Hlt | Hge]; [| by eauto].
      exact (H Timeout _ response Hlt Hreadable). }
    destruct (raise_for_status response); [by eauto |].
    destruct (json response) as [msg | data] eqn:Hjson; [by eauto |].
    destruct (Hreadable _ _ _ Hget data Hjson) as (body & -> & Hfields).
    cbn [py_get].
    destruct (body !! "fields") as [v |] eqn:Hv; cbn [default from_option id].
    + destruct (Hfields v eq_refl) as (fields & ->). cbn [py_get].
      destruct (truthy _); eauto.
    + cbn [py_get]. destruct (truthy _); eauto.
  - destruct (lt_dec retry_count MAX_RETRIES) as [Hlt | Hge]; [| by eauto].
    exact (H0 Timeout _ Hlt Hreadable).
Qed.

(** ** The batch loop *)

Lemma bind_Ok {A B} (m : Py A) (k : A -> Py B) st b st' :
  (m ≫= k) st = (Ok b, st') ->
  exists a st1, m st = (Ok a, st1) /\ k a st1 = (Ok b, st').
Proof.
  unfold mbind, Py_bind. destruct (m st) as [[a | e] st1]; [eauto | done].
Qed.

Lemma bind_Raise {A B} (m : Py A) (k : A -> Py B) st e st' :
  (m ≫= k) st = (Raise e, st') ->
  m st = (Raise e, st')
  \/ exists a st1, m st = (Ok a, st1) /\ k a st1 = (Raise e, st').
Proof.
  unfold mbind, Py_bind. destruct (m st) as [[a | e1] st1]; intros Hk;
    [right; eauto | left; congruence].
Qed.

(** The keys of the dict [fetch_languages] returns: those it had and the
    languages of the loop. *)
Lemma fetch_languages_keys item_id langs :
  forall (names names' : gmap string JSON) st st',
  fetch_languages item_id langs names st = (Ok names', st') ->
  forall lang : string,
    is_Some (names' !! lang) <-> lang ∈ langs \/ is_Some (names !! lang).
Proof.
  induction langs as [| l langs IH]; intros names names' st st' Hrun lang.
  - injection Hrun as <- _. rewrite elem_of_nil. tauto.
  - cbn [fetch_languages] in Hrun.
    apply bind_Ok in Hrun as (name & st1 & _ & Hrest).
    rewrite (IH _ _ _ _ Hrest lang), elem_of_cons, lookup_insert_is_Some.
    destruct (decide (l = lang)) as [-> | Hne]; [tauto |].
    split; [intros [? | [? | [_ ?]]] | intros [[? | ?] | ?]]; auto; congruence.
Qed.

Lemma fetch_languages_raises item_id langs :
  forall (names : gmap string JSON) st e st',
  fetch_languages item_id langs names st = (Raise e, st') ->
  e = AttributeError.
Proof.
  induction langs as [| l langs IH]; intros names st e st' Hrun; [done |].
  cbn [fetch_languages] in Hrun.
  apply bind_Raise in Hrun as [Hcall | (name & st1 & _ & Hrest)];
    eauto using fetch_name_raises.
Qed.

Lemma fetch_all_languages_complete item_id st names' st' :
  fetch_all_languages item_id st = (Ok names', st') ->
  complete (mkDye item_id names').
Proof.
  intros Hrun lang. cbn [names].
  rewrite (fetch_languages_keys _ _ _ _ _ _ Hrun lang), lookup_empty.
  split; [auto | intros [? | []%is_Some_None]; done].
Qed.

Lemma fetch_dyes_appends item_ids :
  forall dye_data st dye_data' st',
  fetch_dyes item_ids dye_data st = (Ok dye_data', st') ->
  exists new,
    dye_data' = dye_data ++ new
    /\ map itemID new = item_ids
    /\ Forall complete new.
Proof.
  induction item_ids as [| item_id item_ids IH];
    intros dye_data st dye_data' st' Hrun.
  - injection Hrun as <- _. exists []. by rewrite app_nil_r.
  - cbn [fetch_dyes] in Hrun.
    apply bind_Ok in Hrun as (names1 & st1 & Hnames & Hrest).
    destruct (IH _ _ _ _ Hrest) as (new & -> & Hids & Hall).
    exists (mkDye item_id names1 :: new). rewrite <- app_assoc.
    split; [done |]. split; [by cbn; rewrite Hids |].
    constructor; [by eapply fetch_all_languages_complete | done].
Qed.

Lemma fetch_dyes_raises item_ids :
  forall dye_data st e st',
  fetch_dyes item_ids dye_data st = (Raise e, st') -> e = AttributeError.
Proof.
  induction item_ids as [| item_id item_ids IH];
    intros dye_data st e st' Hrun; [done |].
  cbn [fetch_dyes] in Hrun.
  apply bind_Raise in Hrun as [Hcall | (names1 & st1 & _ & Hrest)]; [| eauto].
  by eapply fetch_languages_raises.
Qed.

Lemma fetch_dyes_item_ids item_ids st dye_data st' :
  fetch_dyes item_ids [] st = (Ok dye_data, st') ->
  map itemID dye_data = item_ids /\ Forall complete dye_data.
Proof.
  intros Hrun.
  by destruct (fetch_dyes_appends _ _ _ _ _ Hrun) as (new & -> & Hids & Hall).
Qed.

(** C6. After the batch loop, [dye_data] holds one record for each entry
    of the loaded list, in the order of the list and with that entry's
    itemID, and each record's [names] has an entry, possibly [None], for
    every language of [LANGUAGES] (and for nothing else). *)
Theorem fetch_dyes_one_record_each item_ids st dye_data st' :
  fetch_dyes item_ids [] st = (Ok dye_data, st') ->
  length dye_data = length item_ids
  /\ map itemID dye_data = item_ids
  /\ Forall complete dye_data.
Proof.
  intros Hrun.
  destruct (fetch_dyes_item_ids _ _ _ _ Hrun) as [Hids Hall].
  split; [| done]. by rewrite <- Hids, length_map.
Qed.

(** When every body is readable the batch loop runs to its end. *)
Lemma fetch_dyes_returns item_ids :
  (forall n request response,
      endpoint n request = Responded response -> readable response) ->
  forall dye_data st,
  exists dye_data' st', fetch_dyes item_ids dye_data st = (Ok dye_data', st').
Proof.
  intros Hreadable.
  assert (Hlangs : forall item_id langs (names : gmap string JSON) st,
    exists names' st',
      fetch_languages item_id langs names st = (Ok names', st')).
  { intros item_id langs.
    induction langs as [| l langs IH]; intros names st; [by eexists _, _ |].
    cbn [fetch_languages]. unfold mbind, Py_bind.
    destruct (fetch_name_returns item_id l 0 st Hreadable) as (v & st1 & ->).
    apply IH. }
  induction item_ids as [| item_id item_ids IH]; intros dye_data st;
    [by eexists _, _ |].
  cbn [fetch_dyes]. unfold mbind, Py_bind, fetch_all_languages.
  destruct (Hlangs item_id LANGUAGES ∅ st) as (names' & st1 & ->).
  apply IH.
Qed.

Lemma extract_item_ids_objects dyes :
  Forall is_object dyes ->
  forall item_ids warned,
  extract_item_ids dyes item_ids warned
  = (Ok (item_ids ++ omap (member "itemID") dyes),
     warned ++ filter (fun dye => ~ is_Some (member "itemID" dye)) dyes).
Proof.
  induction 1 as [| dye dyes [members ->] _ IH]; intros item_ids warned.
  - cbn. by rewrite !app_nil_r.
  - cbn [extract_item_ids py_contains py_getitem omap list_omap member].
    rewrite filter_cons. cbn [member].
    destruct (members !! "itemID") as [v |] eqn:Hv.
    + rewrite bool_decide_eq_true_2 by eauto.
      rewrite decide_False by (intros Hn; apply Hn; eauto).
      rewrite IH. by rewrite <- app_assoc.
    + rewrite bool_decide_eq_false_2 by (by intros []).
      rewrite decide_True by (by intros []).
      rewrite IH. by rewrite <- app_assoc.
Qed.

(** C9, for an array of objects. [load_dye_data] returns the itemID
    members of the elements that have one, in the order of the array, and
    prints the warning for exactly the elements that have none; such an
    element does not stop the loop. *)
Theorem load_dye_data_objects dyes :
  Forall is_object dyes ->
  load_dye_data (Content (JArr dyes))
  = (Ok (omap (member "itemID") dyes),
     filter (fun dye => ~ is_Some (member "itemID" dye)) dyes).
Proof.
  intros Hobjects. cbn [load_dye_data].
  by rewrite extract_item_ids_objects.
Qed.

(** ** The CSV file and the exit status *)

Lemma csv_field_name py_repr dye lang :
  csv_field py_repr (default (JStr "") (names dye !! lang))
  = name_column py_repr dye lang.
Proof.
  unfold name_column. by destruct (names dye !! lang) as [[] |].
Qed.

(** What [main] does once the input is loaded. *)
Lemma main_written py_repr file out csv :
  csv_file (main py_repr file out) = Some csv ->
  exists item_ids dye_data st,
    fst (load_dye_data file) = Ok item_ids
    /\ fetch_dyes item_ids [] init = (Ok dye_data, st)
    /\ out = Writable
    /\ main py_repr file out
        = mkRun (SystemExit
                   (if Z.of_nat (length (failed_requests st)) =? 0
                    then 0 else 1))
            (snd (load_dye_data file))
            (Some (fieldnames
                     :: map (fun dye => map (csv_field py_repr) (row dye))
                          dye_data))
            (Some st).
Proof.
  unfold main.
  destruct (load_dye_data file) as [[item_ids | e] warned]; [| done].
  destruct (fetch_dyes item_ids [] init) as [[dye_data | e] st] eqn:Hrun;
    [| done].
  destruct out; cbn; [| done | done].
  intros _. by exists item_ids, dye_data, st.
Qed.

(** C7. For an input array of objects, the CSV that [main] writes starts
    with the header itemID, English Name, Japanese Name, German Name,
    French Name, and continues with one line per element that has an itemID
    member, in the order of the array: the itemID, then for each language
    the name, or the empty string when the name is [None] or missing. *)
Theorem main_csv py_repr dyes out csv :
  Forall is_object dyes ->
  csv_file (main py_repr (Content (JArr dyes)) out) = Some csv ->
  exists (dye_data : list Dye) (st : State),
    fetch_dyes (omap (member "itemID") dyes) [] init = (Ok dye_data, st)
    /\ map itemID dye_data = omap (member "itemID") dyes
    /\ csv
       = ["itemID"; "English Name"; "Japanese Name"; "German Name";
          "French Name"]
         :: map (fun dye =>
                   [ csv_field py_repr (itemID dye);
                     name_column py_repr dye "en";
                     name_column py_repr dye "ja";
                     name_column py_repr dye "de";
                     name_column py_repr dye "fr" ])
              dye_data.
Proof.
  intros Hobjects Hcsv.
  destruct (main_written _ _ _ _ Hcsv)
    as (item_ids & dye_data & st & Hload & Hrun & _ & Hmain).
  rewrite Hmain in Hcsv. injection Hcsv as <-.
  cbn [load_dye_data] in Hload.
  rewrite extract_item_ids_objects in Hload by done. injection Hload as <-.
  exists dye_data, st. split; [done |]. split.
  - by destruct (fetch_dyes_item_ids _ _ _ _ Hrun).
  - unfold fieldnames. f_equal. apply map_ext. intros dye.
    cbn [row map]. by rewrite !csv_field_name.
Qed.

(** C8. A run that finishes the batch and writes the CSV ends with
    [sys.exit(1)] when the failure list is not empty and with [sys.exit(0)]
    when it is empty. *)
Theorem main_exit_status py_repr file out csv :
  csv_file (main py_repr file out) = Some csv ->
  exists st,
    fetcher (main py_repr file out) = Some st
    /\ ended_by (main py_repr file out)
       = SystemExit (match failed_requests st with [] => 0 | _ :: _ => 1 end)
    /\ exit_status (ended_by (main py_repr file out))
       = match failed_requests st with [] => 0 | _ :: _ => 1 end.
Proof.
  intros Hcsv.
  destruct (main_written _ _ _ _ Hcsv)
    as (item_ids & dye_data & st & _ & _ & _ & ->).
  exists st. cbn. by destruct (failed_requests st).
Qed.

(** ** What one call of [fetch_name] does to the state *)

Lemma outcome_failure item_id language st why :
  outcome item_id language st
    (record_failure (item_id, language, why)
       (attempt (mkRequest item_id language) st))
    (Ok JNull).
Proof. right; left. by exists why. Qed.

Lemma outcome_same item_id language st st1 st' res :
  failed_requests st1 = failed_requests st ->
  successful_requests st1 = successful_requests st ->
  outcome item_id language st1 st' res -> outcome item_id language st st' res.
Proof. unfold outcome. intros -> ->. done. Qed.

(** The events, the counters and the outcome of a call, together. *)
Lemma fetch_name_effects item_id language retry_count st :
  exists res st' added (n : nat),
    fetch_name item_id language retry_count st = (res, st')
    /\ trace st' = trace st ++ added
    /\ attempts (mkRequest item_id language) n added
    /\ (1 <= n <= 1 + (MAX_RETRIES - retry_count))%nat
    /\ sent st' = (sent st + n)%nat
    /\ total_requests st' = total_requests st + Z.of_nat n
    /\ outcome item_id language st st' res.
Proof.
  funelim (fetch_name item_id language retry_count st).
  rewrite attempt_session_get.
  set (request := mkRequest item_id language) in *.
  assert (Hlast : forall why,
    exists res st' added (n : nat),
      (Ok JNull, record_failure (item_id, language, why) (attempt request st))
      = (res, st')
      /\ trace st' = trace st ++ added
      /\ attempts request n added
      /\ (1 <= n <= 1 + (MAX_RETRIES - retry_count))%nat
      /\ sent st' = (sent st + n)%nat
      /\ total_requests st' = total_requests st + Z.of_nat n
      /\ outcome item_id language st st' res).
  { intros why. eexists _, _, [pacing; Get request], 1%nat.
    split; [reflexivity |]. split; [reflexivity |].
    split; [repeat constructor |]. split; [lia |].
    split; [cbn; lia |]. split; [cbn; lia |]. apply outcome_failure. }
  assert (Hnext : forall st1 between,
    trace st1 = trace st ++ pacing :: Get request :: between ->
    (forall n tr,
        attempts request n tr -> attempts request n (between ++ tr)) ->
    sent st1 = S (sent st) ->
    total_requests st1 = total_requests st + 1 ->
    failed_requests st1 = failed_requests st ->
    successful_requests st1 = successful_requests st ->
    (retry_count < MAX_RETRIES)%nat ->
    (exists res st' added (n : nat),
      fetch_name item_id language (retry_count + 1) st1 = (res, st')
      /\ trace st' = trace st1 ++ added
      /\ attempts request n added
      /\ (1 <= n <= 1 + (MAX_RETRIES - (retry_count + 1)))%nat
      /\ sent st' = (sent st1 + n)%nat
      /\ total_requests st' = total_requests st1 + Z.of_nat n
      /\ outcome item_id language st1 st' res) ->
    exists res st' added (n : nat),
      fetch_name item_id language (retry_count + 1) st1 = (res, st')
      /\ trace st' = trace st ++ added
      /\ attempts request n added
      /\ (1 <= n <= 1 + (MAX_RETRIES - retry_count))%nat
      /\ sent st' = (sent st + n)%nat
      /\ total_requests st' = total_requests st + Z.of_nat n
      /\ outcome item_id language st st' res).
  { intros st1 between Htr Hbetween Hsent Htotal Hfailed Hsucc Hlt
      (res & st' & added & n & Hcall & Htr' & Hadded & Hn & Hsent'
       & Htotal' & Hout).
    exists res, st', (pacing :: Get request :: between ++ added), (S n).
    split; [exact Hcall |].
    split; [by rewrite Htr', Htr, <- app_assoc |].
    split; [by constructor; apply Hbetween |].
    split; [unfold MAX_RETRIES in *; lia |].
    split; [lia |]. split; [lia |].
    by eapply outcome_same. }
  destruct (endpoint (sent st) request) as [response | | msg];
    [| | apply Hlast].
  - destruct (status_code response =? 429).
    { destruct (lt_dec retry_count MAX_RETRIES) as [Hlt | Hge]; [| apply Hlast].
      apply (Hnext _ [backoff (2 ^ Z.of_nat retry_count)]);
        [by cbn; rewrite <- app_assoc | by intros; constructor | done..
        | exact (H Timeout _ response Hlt) ]. }
    destruct (status_code response =? 404); [apply Hlast |].
    destruct (500 <=? status_code response).
    { destruct (lt_dec retry_count MAX_RETRIES) as [Hlt | Hge]; [| apply Hlast].
      apply (Hnext _ [backoff (2 ^ Z.of_nat retry_count)]);
        [by cbn; rewrite <- app_assoc | by intros; constructor | done..
        | exact (H Timeout _ response Hlt) ]. }
    destruct (raise_for_status response); [apply Hlast |].
    destruct (json response) as [msg | data]; [apply Hlast |].
    assert (Hone : forall res st1,
      trace st1 = trace (attempt request st) ->
      sent st1 = sent (attempt request st) ->
      total_requests st1 = total_requests (attempt request st) ->
      outcome item_id language st st1 res ->
      exists res' st' added (n : nat),
        (res, st1) = (res', st')
        /\ trace st' = trace st ++ added
        /\ attempts request n added
        /\ (1 <= n <= 1 + (MAX_RETRIES - retry_count))%nat
        /\ sent st' = (sent st + n)%nat
        /\ total_requests st' = total_requests st + Z.of_nat n
        /\ outcome item_id language st st' res').
    { intros res st1 Htr Hsent Htotal Hout.
      exists res, st1, [pacing; Get request], 1%nat.
      split; [reflexivity |]. split; [by rewrite Htr |].
      split; [repeat constructor |]. split; [lia |].
      split; [rewrite Hsent; cbn; lia |].
      split; [rewrite Htotal; cbn; lia | done]. }
    destruct (py_get data "fields" (JObj ∅)) as [fields | e] eqn:Hfields.
    + destruct (py_get fields "Name" JNull) as [name | e] eqn:Hname.
      * destruct (truthy name) eqn:Htruthy; [| apply Hlast].
        apply Hone; [done.. |]. left. by exists name.
      * apply py_get_raises in Hname as ->.
        apply Hone; [done.. |]. by right; right.
    + apply py_get_raises in Hfields as ->.
      apply Hone; [done.. |]. by right; right.
  - destruct (lt_dec retry_count MAX_RETRIES) as [Hlt | Hge]; [| apply Hlast].
    apply (Hnext _ []); [done | done | done.. | exact (H0 Timeout _ Hlt) ].
Qed.

Lemma attempts_paced request n tr : attempts request n tr -> paced tr.
Proof. induction 1; by constructor. Qed.

Lemma attempts_requests request n tr :
  attempts request n tr ->
  forall request', Get request' ∈ tr -> request' = request.
Proof.
  induction 1 as [| seconds n tr _ IH | n tr _ IH]; intros request' Hin.
  - by apply elem_of_nil in Hin.
  - apply elem_of_cons in Hin as [[=] | Hin]; auto.
  - apply elem_of_cons in Hin as [[=] | Hin].
    apply elem_of_cons in Hin as [[= ->] | Hin]; auto.
Qed.

Lemma paced_app tr1 tr2 : paced tr1 -> paced tr2 -> paced (tr1 ++ tr2).
Proof. induction 1; cbn; intros; by try constructor; auto. Qed.

(** In a paced trace the event before a request is the pacing sleep. *)
Lemma paced_lookup tr :
  paced tr ->
  forall (i : nat) request, tr !! i = Some (Get request) ->
  exists j : nat, i = S j /\ tr !! j = Some pacing.
Proof.
  induction 1 as [| duration tr _ IH | request0 tr _ IH]; intros i request Hi.
  - done.
  - destruct i as [| i]; [done |]. cbn in Hi.
    destruct (IH _ _ Hi) as (j & -> & Hj). by exists (S j).
  - destruct i as [| [| i]]; [done | by exists 0%nat |]. cbn in Hi.
    destruct (IH _ _ Hi) as (j & -> & Hj). by exists (S (S j)).
Qed.

Lemma fetch_name_429_last item_id language retry_count st response :
  endpoint (sent st) (mkRequest item_id language) = Responded response ->
  status_code response = 429 ->
  (MAX_RETRIES <= retry_count)%nat ->
  fetch_name item_id language retry_count st
  = (Ok JNull,
     record_failure (item_id, language, "Rate limit")
       (attempt (mkRequest item_id language) st)).
Proof.
  intros Hget Hcode Hge. fetch_step. rewrite Hget, Hcode. cbn.
  destruct (lt_dec retry_count MAX_RETRIES); [lia | done].
Qed.

(** A response with a status below 400 reaches the extraction of the
    name. *)
Lemma fetch_name_below_400 item_id language retry_count st response :
  endpoint (sent st) (mkRequest item_id language) = Responded response ->
  status_code response < 400 ->
  fetch_name item_id language retry_count st
  = let st := attempt (mkRequest item_id language) st in
    match json response with
    | inl msg => (Ok JNull, record_failure (item_id, language, msg) st)
    | inr data =>
        match py_get data "fields" (JObj ∅) with
        | Raise e => (Raise e, st)
        | Ok fields =>
            match py_get fields "Name" JNull with
            | Raise e => (Raise e, st)
            | Ok name =>
                if truthy name then (Ok name, count_success st)
                else
                  (Ok JNull,
                   record_failure (item_id, language, "Missing Name field") st)
            end
        end
    end.
Proof.
  intros Hget Hcode. fetch_step. rewrite Hget.
  destruct (status_code response =? 429) eqn:H429; [lia |].
  destruct (status_code response =? 404) eqn:H404; [lia |].
  destruct (500 <=? status_code response) eqn:H500; [lia |].
  unfold raise_for_status. cbn zeta.
  destruct (400 <=? status_code response) eqn:H400; [lia |].
  destruct (500 <=? status_code response) eqn:H500'; [lia |].
  reflexivity.
Qed.

(** ** Further behaviour of the retry client *)

(** X1. When the endpoint answers 429 to every attempt, [fetch_name] makes
    the first attempt and [MAX_RETRIES] retries with sleeps of 1, 2 and 4
    seconds before them, then returns [None] and has appended the one entry
    "Rate limit" to the failures. *)
Theorem fetch_name_always_429 item_id language st :
  (forall k : nat, exists response,
      endpoint (sent st + k)%nat (mkRequest item_id language)
      = Responded response
      /\ status_code response = 429) ->
  fetch_name item_id language 0 st
  = (Ok JNull,
     mkState (failed_requests st ++ [(item_id, language, "Rate limit")])
       (total_requests st + 4) (successful_requests st) (sent st + 4)
       (trace st ++
          [ pacing; Get (mkRequest item_id language);
            backoff 1;
            pacing; Get (mkRequest item_id language);
            backoff 2;
            pacing; Get (mkRequest item_id language);
            backoff 4;
            pacing; Get (mkRequest item_id language) ])).
Proof.
  intros Hall.
  destruct (Hall 0%nat) as (r0 & Hget0 & Hcode0).
  destruct (Hall 1%nat) as (r1 & Hget1 & Hcode1).
  destruct (Hall 2%nat) as (r2 & Hget2 & Hcode2).
  destruct (Hall 3%nat) as (r3 & Hget3 & Hcode3).
  replace (sent st + 0)%nat with (sent st) in Hget0 by lia.
  replace (sent st + 1)%nat with (S (sent st)) in Hget1 by lia.
  replace (sent st + 2)%nat with (S (S (sent st))) in Hget2 by lia.
  replace (sent st + 3)%nat with (S (S (S (sent st)))) in Hget3 by lia.
  rewrite (fetch_name_429_retry _ _ _ _ r0) by retry_side.
  rewrite (fetch_name_429_retry _ _ _ _ r1) by retry_side.
  rewrite (fetch_name_429_retry _ _ _ _ r2) by retry_side.
  rewrite (fetch_name_429_last _ _ _ _ r3) by retry_side.
  f_equal. same_state.
Qed.

(** X2. When [session.get] raises a [RequestException] other than a
    timeout, [fetch_name] does not retry: that one request is made, the
    entry with the text of the exception is appended to the failures and
    [None] is returned, whatever the retry count. *)
Theorem fetch_name_transport_error item_id language retry_count st msg :
  endpoint (sent st) (mkRequest item_id language) = RequestException msg ->
  fetch_name item_id language retry_count st
  = (Ok JNull,
     mkState (failed_requests st ++ [(item_id, language, msg)])
       (total_requests st + 1) (successful_requests st) (sent st + 1)
       (trace st ++ [pacing; Get (mkRequest item_id language)])).
Proof.
  intros Hget. fetch_step. rewrite Hget. f_equal. same_state.
Qed.

(** X3. A 4xx status other than 404 and 429 is not retried either:
    [raise_for_status] raises, the handler for [RequestException] appends
    the entry with the text of the [HTTPError] and [None] is returned. *)
Theorem fetch_name_client_error item_id language retry_count st response :
  endpoint (sent st) (mkRequest item_id language) = Responded response ->
  400 <= status_code response < 500 ->
  status_code response <> 404 ->
  status_code response <> 429 ->
  fetch_name item_id language retry_count st
  = (Ok JNull,
     mkState
       (failed_requests st ++
          [(item_id, language,
            pretty (status_code response) +:+ " Client Error: "
              +:+ reason response +:+ " for url: " +:+ url response)])
       (total_requests st + 1) (successful_requests st) (sent st + 1)
       (trace st ++ [pacing; Get (mkRequest item_id language)])).
Proof.
  intros Hget Hcode H404 H429. fetch_step. rewrite Hget.
  destruct (status_code response =? 429) eqn:E429; [lia |].
  destruct (status_code response =? 404) eqn:E404; [lia |].
  destruct (500 <=? status_code response) eqn:E500; [lia |].
  unfold raise_for_status. cbn zeta.
  destruct (400 <=? status_code response) eqn:E400; [| lia].
  destruct (status_code response <? 500) eqn:E499; [| lia].
  cbn [andb]. f_equal. same_state.
Qed.

(** X4. Every status below 400, not only 2xx, counts as an answer: when
    the body has a non-empty Name under "fields", the first attempt returns
    it, counts one request and one success and appends no failure. *)
Theorem fetch_name_first_try
    item_id language retry_count st response body fields name :
  endpoint (sent st) (mkRequest item_id language) = Responded response ->
  status_code response < 400 ->
  json response = inr (JObj body) ->
  body !! "fields" = Some (JObj fields) ->
  fields !! "Name" = Some name ->
  truthy name = true ->
  fetch_name item_id language retry_count st
  = (Ok name,
     mkState (failed_requests st) (total_requests st + 1)
       (successful_requests st + 1) (sent st + 1)
       (trace st ++ [pacing; Get (mkRequest item_id language)])).
Proof.
  intros Hget Hcode Hjson Hfields Hname Htruthy.
  rewrite (fetch_name_below_400 _ _ _ _ response) by done.
  cbn zeta. rewrite Hjson. cbn [py_get]. rewrite Hfields.
  cbn [default from_option id py_get]. rewrite Hname.
  cbn [default from_option id]. rewrite Htruthy.
  f_equal. same_state.
Qed.

(** X5. A body that is not a dict, or whose "fields" member is not a dict,
    is caught by no handler: the [AttributeError] leaves [fetch_name] after
    the request was counted, and neither a success nor a failure is
    recorded. *)
Theorem fetch_name_unreadable_body
    item_id language retry_count st response data :
  endpoint (sent st) (mkRequest item_id language) = Responded response ->
  status_code response < 400 ->
  json response = inr data ->
  (forall body, data <> JObj body)
  \/ (exists body v,
        data = JObj body /\ body !! "fields" = Some v
        /\ forall fields, v <> JObj fields) ->
  fetch_name item_id language retry_count st
  = (Raise AttributeError,
     mkState (failed_requests st) (total_requests st + 1)
       (successful_requests st) (sent st + 1)
       (trace st ++ [pacing; Get (mkRequest item_id language)])).
Proof.
  intros Hget Hcode Hjson Hbad.
  rewrite (fetch_name_below_400 _ _ _ _ response) by done.
  cbn zeta. rewrite Hjson.
  destruct Hbad as [Hdata | (body & v & -> & Hv & Hfields)].
  - destruct data; try (f_equal; same_state). by destruct (Hdata members).
  - cbn [py_get]. rewrite Hv. cbn [default from_option id].
    destruct v; try (f_equal; same_state). by destruct (Hfields members).
Qed.

(** X6. Whatever the endpoint does, a call ends in one of three ways: it
    returns a non-empty name and has counted one success more; it returns
    [None] and has appended exactly one entry, for its own item and
    language, to the failures; or it raises [AttributeError] and has
    recorded neither.  Entries already in the failure list stay. *)
Theorem fetch_name_outcome item_id language retry_count st :
  exists res st',
    fetch_name item_id language retry_count st = (res, st')
    /\ ((exists name,
           res = Ok name /\ truthy name = true
           /\ failed_requests st' = failed_requests st
           /\ successful_requests st' = successful_requests st + 1)
        \/ (exists why,
              res = Ok JNull
              /\ failed_requests st'
                 = failed_requests st ++ [(item_id, language, why)]
              /\ successful_requests st' = successful_requests st)
        \/ (res = Raise AttributeError
            /\ failed_requests st' = failed_requests st
            /\ successful_requests st' = successful_requests st)).
Proof.
  destruct (fetch_name_effects item_id language retry_count st)
    as (res & st' & added & n & Hcall & _ & _ & _ & _ & _ & Hout).
  by exists res, st'.
Qed.

(** X7. A call only appends to the trace, and in what it appends the
    pacing sleep stands directly before every request: when the trace was
    paced before the call it is paced after it. *)
Theorem fetch_name_pacing item_id language retry_count st :
  paced (trace st) ->
  exists res st' added,
    fetch_name item_id language retry_count st = (res, st')
    /\ trace st' = trace st ++ added
    /\ paced (trace st')
    /\ forall (i : nat) request,
         trace st' !! i = Some (Get request) ->
         exists j : nat, i = S j /\ trace st' !! j = Some pacing.
Proof.
  intros Hpaced.
  destruct (fetch_name_effects item_id language retry_count st)
    as (res & st' & added & n & Hcall & Htrace & Hadded & _).
  assert (Hpaced' : paced (trace st')).
  { rewrite Htrace. eauto using paced_app, attempts_paced. }
  exists res, st', added. eauto using paced_lookup.
Qed.

(** X8. The requests a call sends are all for its own item and language,
    and they are as many as [total_requests] grew by. *)
Theorem fetch_name_own_requests item_id language retry_count st :
  exists res st' added,
    fetch_name item_id language retry_count st = (res, st')
    /\ trace st' = trace st ++ added
    /\ (forall request,
          Get request ∈ added -> request = mkRequest item_id language)
    /\ total_requests st' = total_requests st + Z.of_nat (requests_in added).
Proof.
  destruct (fetch_name_effects item_id language retry_count st)
    as (res & st' & added & n & Hcall & Htrace & Hadded & _ & _ & Htotal & _).
  exists res, st', added. split; [done |]. split; [done |].
  split; [eauto using attempts_requests |].
  rewrite Htotal. do 2 f_equal. clear -Hadded.
  induction Hadded; cbn; lia.
Qed.

(** ** Further behaviour of the batch loop *)

Lemma NoDup_LANGUAGES : NoDup LANGUAGES.
Proof. by apply (bool_decide_unpack _). Qed.

(** A relation between states that every call of [fetch_name] respects is
    respected by the loops, also when they end in an exception. *)
Lemma fetch_dyes_respects (R : State -> State -> Prop) :
  (forall st, R st st) ->
  (forall st1 st2 st3, R st1 st2 -> R st2 st3 -> R st1 st3) ->
  (forall item_id language st,
      R st (snd (fetch_name item_id language 0 st))) ->
  forall item_ids dye_data st, R st (snd (fetch_dyes item_ids dye_data st)).
Proof.
  intros Hrefl Htrans Hcall.
  assert (Hlangs : forall item_id langs (names : gmap string JSON) st,
    R st (snd (fetch_languages item_id langs names st))).
  { intros item_id langs.
    induction langs as [| l langs IH]; intros names st; [apply Hrefl |].
    cbn [fetch_languages]. unfold mbind, Py_bind.
    pose proof (Hcall item_id l st) as Hst.
    destruct (fetch_name item_id l 0 st) as [[name | e] st1]; [| done].
    eapply Htrans; [exact Hst | apply IH]. }
  induction item_ids as [| item_id item_ids IH]; intros dye_data st;
    [apply Hrefl |].
  cbn [fetch_dyes]. unfold mbind, Py_bind, fetch_all_languages.
  pose proof (Hlangs item_id LANGUAGES ∅ st) as Hst.
  destruct (fetch_languages item_id LANGUAGES ∅ st) as [[names1 | e] st1];
    [| done].
  eapply Htrans; [exact Hst | apply IH].
Qed.

Lemma fetch_dyes_paced item_ids dye_data st :
  paced (trace st) -> paced (trace (snd (fetch_dyes item_ids dye_data st))).
Proof.
  apply (fetch_dyes_respects
           (fun st st' => paced (trace st) -> paced (trace st')));
    [auto | auto |].
  intros item_id language st0 Hpaced.
  destruct (fetch_name_effects item_id language 0 st0)
    as (res & st' & added & n & Hcall & Htrace & Hadded & _).
  rewrite Hcall. cbn [snd]. rewrite Htrace.
  eauto using paced_app, attempts_paced.
Qed.

(** The counters across the languages of one item. *)
Lemma fetch_languages_count item_id langs :
  forall (names names' : gmap string JSON) st st',
  fetch_languages item_id langs names st = (Ok names', st') ->
  successful_requests st' + Z.of_nat (length (failed_requests st'))
  = successful_requests st + Z.of_nat (length (failed_requests st))
    + Z.of_nat (length langs)
  /\ Z.of_nat (length langs) <= total_requests st' - total_requests st
     <= 4 * Z.of_nat (length langs)
  /\ failed_requests st `prefix_of` failed_requests st'.
Proof.
  induction langs as [| l langs IH]; intros names names' st st' Hrun.
  - injection Hrun as _ <-. cbn. split; [lia |]. split; [lia | done].
  - cbn [fetch_languages] in Hrun.
    apply bind_Ok in Hrun as (name & st1 & Hcall & Hrest).
    destruct (IH _ _ _ _ Hrest) as (Hsum & Htotal & Hprefix).
    destruct (fetch_name_effects item_id l 0 st)
      as (res & st1' & added & n & Hcall' & _ & _ & Hn & _ & Htotal1 & Hout).
    rewrite Hcall in Hcall'. injection Hcall' as <- <-.
    unfold MAX_RETRIES in Hn. cbn [length].
    destruct Hout as [(name' & _ & _ & Hfailed & Hsucc)
                     | [(why & _ & Hfailed & Hsucc) | (Hres & _)]];
      [| | done].
    + rewrite Hfailed in *. split; [lia |]. split; [lia | done].
    + rewrite Hfailed in *. rewrite length_app in Hsum. cbn in Hsum.
      split; [lia |]. split; [lia |].
      etrans; [| exact Hprefix]. by apply prefix_app_r.
Qed.

Lemma fetch_dyes_count item_ids :
  forall dye_data st dye_data' st',
  fetch_dyes item_ids dye_data st = (Ok dye_data', st') ->
  successful_requests st' + Z.of_nat (length (failed_requests st'))
  = successful_requests st + Z.of_nat (length (failed_requests st))
    + 4 * Z.of_nat (length item_ids)
  /\ 4 * Z.of_nat (length item_ids) <= total_requests st' - total_requests st
     <= 16 * Z.of_nat (length item_ids)
  /\ failed_requests st `prefix_of` failed_requests st'.
Proof.
  induction item_ids as [| item_id item_ids IH];
    intros dye_data st dye_data' st' Hrun.
  - injection Hrun as _ <-. cbn. split; [lia |]. split; [lia | done].
  - cbn [fetch_dyes] in Hrun.
    apply bind_Ok in Hrun as (names1 & st1 & Hnames & Hrest).
    destruct (IH _ _ _ _ Hrest) as (Hsum & Htotal & Hprefix).
    destruct (fetch_languages_count _ _ _ _ _ _ Hnames)
      as (Hsum1 & Htotal1 & Hprefix1).
    cbn [length LANGUAGES] in *.
    split; [lia |]. split; [lia |]. by etrans.
Qed.

(** X9. Across the batch loop the summary adds up: each of the
    [4 * len(item_ids)] calls is counted once, as a success or as a failure;
    between 4 and 16 requests are counted per item; and the failure list
    only grows at its end. *)
Theorem fetch_dyes_accounting item_ids dye_data st dye_data' st' :
  fetch_dyes item_ids dye_data st = (Ok dye_data', st') ->
  successful_requests st' + Z.of_nat (length (failed_requests st'))
  = successful_requests st + Z.of_nat (length (failed_requests st))
    + 4 * Z.of_nat (length item_ids)
  /\ 4 * Z.of_nat (length item_ids) <= total_requests st' - total_requests st
     <= 16 * Z.of_nat (length item_ids)
  /\ failed_requests st `prefix_of` failed_requests st'.
Proof. apply fetch_dyes_count. Qed.

(** The loop over the languages leaves the other keys of [names] alone. *)
Lemma fetch_languages_other item_id langs :
  forall (names names' : gmap string JSON) st st' (lang : string),
  fetch_languages item_id langs names st = (Ok names', st') ->
  lang ∉ langs -> names' !! lang = names !! lang.
Proof.
  induction langs as [| l langs IH]; intros names names' st st' lang Hrun Hnot.
  - by injection Hrun as <- _.
  - cbn [fetch_languages] in Hrun.
    apply bind_Ok in Hrun as (name & st1 & _ & Hrest).
    apply not_elem_of_cons in Hnot as [Hne Hnot].
    rewrite (IH _ _ _ _ _ Hrest Hnot). by rewrite lookup_insert_ne.
Qed.

Lemma fetch_languages_named item_id langs :
  forall (names names' : gmap string JSON) st st',
  NoDup langs ->
  fetch_languages item_id langs names st = (Ok names', st') ->
  failed_requests st' = failed_requests st
  <-> forall lang : string, lang ∈ langs ->
        exists name, names' !! lang = Some name /\ truthy name = true.
Proof.
  induction langs as [| l langs IH]; intros names names' st st' Hnodup Hrun.
  - injection Hrun as _ <-. split; [| done]. intros _ lang Hin.
    by apply elem_of_nil in Hin.
  - apply NoDup_cons in Hnodup as [Hl Hnodup].
    cbn [fetch_languages] in Hrun.
    apply bind_Ok in Hrun as (name & st1 & Hcall & Hrest).
    pose proof (fetch_languages_other _ _ _ _ _ _ l Hrest Hl) as Hkept.
    rewrite lookup_insert_eq in Hkept.
    destruct (fetch_languages_count _ _ _ _ _ _ Hrest) as (_ & _ & Hprefix).
    destruct (fetch_name_effects item_id l 0 st)
      as (res & st1' & added & n & Hcall' & _ & _ & _ & _ & _ & Hout).
    rewrite Hcall in Hcall'. injection Hcall' as <- <-.
    destruct Hout as [(name' & [= <-] & Htruthy & Hfailed & _)
                     | [(why & [= ->] & Hfailed & _) | (Hres & _)]];
      [| | done].
    + rewrite <- Hfailed, (IH _ _ _ _ Hnodup Hrest). split.
      * intros Hall lang [-> | Hin]%elem_of_cons; eauto.
      * intros Hall lang Hin. apply Hall. by right.
    + split.
      * intros Heq. apply prefix_length in Hprefix.
        rewrite Heq, Hfailed, length_app in Hprefix. cbn in Hprefix. lia.
      * intros Hall. destruct (Hall l) as (name & Hname & Htruthy);
          [by left |].
        rewrite Hkept in Hname. by injection Hname as <-.
Qed.

Lemma fetch_dyes_named item_ids :
  forall dye_data st dye_data' st',
  fetch_dyes item_ids dye_data st = (Ok dye_data', st') ->
  exists new,
    dye_data' = dye_data ++ new
    /\ (failed_requests st' = failed_requests st <-> Forall all_named new).
Proof.
  induction item_ids as [| item_id item_ids IH];
    intros dye_data st dye_data' st' Hrun.
  - injection Hrun as <- <-. exists []. by rewrite app_nil_r.
  - cbn [fetch_dyes] in Hrun.
    apply bind_Ok in Hrun as (names1 & st1 & Hnames & Hrest).
    destruct (IH _ _ _ _ Hrest) as (new & -> & Hnew).
    exists (mkDye item_id names1 :: new). rewrite <- app_assoc.
    split; [done |].
    pose proof (fetch_languages_named _ _ _ _ _ _ NoDup_LANGUAGES Hnames)
      as Hfirst.
    destruct (fetch_languages_count _ _ _ _ _ _ Hnames) as (_ & _ & Hp1).
    destruct (fetch_dyes_count _ _ _ _ _ Hrest) as (_ & _ & Hp2).
    rewrite Forall_cons. unfold all_named at 1. cbn [names].
    rewrite <- Hfirst, <- Hnew. split.
    + intros Heq. rewrite Heq in Hp2.
      assert (failed_requests st1 = failed_requests st) as Hst1.
      { destruct Hp1 as [k Hk]. apply prefix_length in Hp2.
        rewrite Hk in Hp2 |- *.
        rewrite length_app in Hp2. destruct k; [by rewrite app_nil_r |].
        cbn in Hp2. lia. }
      by rewrite Heq, Hst1.
    + intros [-> ->]. done.
Qed.

(** X10. The batch loop ends with the failure list it started with
    exactly when every record it appended has a non-empty name for every
    language: no failure stays unrecorded, and none is recorded for a name
    that was fetched. *)
Theorem fetch_dyes_no_failure_iff_named item_ids st dye_data st' :
  fetch_dyes item_ids [] st = (Ok dye_data, st') ->
  failed_requests st' = failed_requests st <-> Forall all_named dye_data.
Proof.
  intros Hrun.
  by destruct (fetch_dyes_named _ _ _ _ _ Hrun) as (new & -> & Hnew).
Qed.

(** X11. In every run of the script, also one that ends in an exception,
    the pacing sleep stands directly before each request the fetcher has
    sent. *)
Theorem main_pacing py_repr file out st :
  fetcher (main py_repr file out) = Some st ->
  paced (trace st)
  /\ forall (i : nat) request,
       trace st !! i = Some (Get request) ->
       exists j : nat, i = S j /\ trace st !! j = Some pacing.
Proof.
  intros Hfetcher.
  assert (Hpaced : paced (trace st)); [| eauto using paced_lookup].
  unfold main in Hfetcher.
  destruct (load_dye_data file) as [[item_ids | e] warned]; [| done].
  pose proof (fetch_dyes_paced item_ids [] init paced_nil) as Hrun.
  destruct (fetch_dyes item_ids [] init) as [[dye_data | e] st1].
  - destruct (generate_csv py_repr out dye_data) as [[[] | e] written];
      by injection Hfetcher as <-.
  - by injection Hfetcher as <-.
Qed.

(** ** Further behaviour of the loader *)

Lemma extract_item_ids_returns dyes :
  forall item_ids warned item_ids' warned',
  extract_item_ids dyes item_ids warned = (Ok item_ids', warned') ->
  item_ids' = item_ids ++ omap (member "itemID") dyes
  /\ warned'
     = warned ++ filter (fun dye => ~ is_Some (member "itemID" dye)) dyes.
Proof.
  induction dyes as [| dye dyes IH]; intros item_ids warned item_ids' warned'.
  - intros [= <- <-]. by rewrite !app_nil_r.
  - cbn [extract_item_ids]. rewrite filter_cons.
    cbn [omap list_omap].
    destruct dye as [| b | n | x | s | items | members];
      cbn [py_contains py_getitem member]; try done.
    + destruct (bool_decide _); [done |].
      rewrite decide_True by (by intros []).
      intros Hrest. destruct (IH _ _ _ _ Hrest) as [-> ->].
      by rewrite <- app_assoc.
    + destruct (existsb _ items); [done |].
      rewrite decide_True by (by intros []).
      intros Hrest. destruct (IH _ _ _ _ Hrest) as [-> ->].
      by rewrite <- app_assoc.
    + destruct (members !! "itemID") as [v |] eqn:Hv.
      * rewrite bool_decide_eq_true_2 by eauto.
        rewrite decide_False by (intros Hn; apply Hn; eauto).
        intros Hrest. destruct (IH _ _ _ _ Hrest) as [-> ->].
        by rewrite <- app_assoc.
      * rewrite bool_decide_eq_false_2 by (by intros []).
        rewrite decide_True by (by intros []).
        intros Hrest. destruct (IH _ _ _ _ Hrest) as [-> ->].
        by rewrite <- app_assoc.
Qed.

Lemma extract_item_ids_raises dyes :
  forall item_ids warned e warned',
  extract_item_ids dyes item_ids warned = (Raise e, warned') ->
  e = TypeError /\ exists bad, bad ∈ dyes /\ ~ is_object bad.
Proof.
  induction dyes as [| dye dyes IH]; intros item_ids warned e warned';
    [done |].
  cbn [extract_item_ids].
  assert (Hhere : forall v : JSON,
    (forall members, v <> JObj members) ->
    v ∈ v :: dyes /\ ~ is_object v).
  { intros v Hv. split; [by left | by intros [members ->]; eapply Hv]. }
  assert (Hlater : forall item_ids1 warned1,
    extract_item_ids dyes item_ids1 warned1 = (Raise e, warned') ->
    e = TypeError /\ exists bad, bad ∈ dye :: dyes /\ ~ is_object bad).
  { intros item_ids1 warned1 Hrest.
    destruct (IH _ _ _ _ Hrest) as (-> & bad & Hin & Hbad).
    split; [done |]. exists bad. split; [by right | done]. }
  destruct dye as [| b | n | x | s | items | members];
    cbn [py_contains py_getitem].
  - intros [= <- _]. eauto.
  - intros [= <- _]. eauto.
  - intros [= <- _]. eauto.
  - intros [= <- _]. eauto.
  - destruct (bool_decide _); [intros [= <- _]; eauto | apply Hlater].
  - destruct (existsb _ items); [intros [= <- _]; eauto | apply Hlater].
  - destruct (members !! "itemID") as [v |] eqn:Hv.
    + rewrite bool_decide_eq_true_2 by eauto. apply Hlater.
    + rewrite bool_decide_eq_false_2 by (by intros []). apply Hlater.
Qed.

Lemma omap_filter_length {A B} (f : A -> option B) (l : list A) :
  (length (omap f l) + length (filter (fun x => ~ is_Some (f x)) l))%nat
  = length l.
Proof.
  induction l as [| x l IH]; [done |].
  rewrite filter_cons. cbn [omap list_omap].
  destruct (f x) as [y |].
  - rewrite decide_False by (intros Hn; apply Hn; eauto). cbn. lia.
  - rewrite decide_True by (by intros []). cbn. lia.
Qed.

(** X12. Whenever [load_dye_data] returns, for whatever array, it returns
    the itemID members of the objects that have one, in the order of the
    array, and has warned about exactly the other elements: every element is
    either loaded or warned about. *)
Theorem load_dye_data_returns dyes item_ids warned :
  load_dye_data (Content (JArr dyes)) = (Ok item_ids, warned) ->
  item_ids = omap (member "itemID") dyes
  /\ warned = filter (fun dye => ~ is_Some (member "itemID" dye)) dyes
  /\ (length item_ids + length warned)%nat = length dyes.
Proof.
  cbn [load_dye_data]. intros Hrun.
  destruct (extract_item_ids_returns _ _ _ _ _ Hrun) as [-> ->].
  cbn [app]. by rewrite omap_filter_length.
Qed.


(** ** Further behaviour of [main] *)

Lemma load_dye_data_raises_status file e warned :
  load_dye_data file = (Raise e, warned) -> exit_status e = 1.
Proof.
  destruct file as [| | | dyes]; cbn [load_dye_data];
    try (by intros [= <- _]).
  destruct dyes; try (by intros [= <- _]).
  by intros [-> _]%extract_item_ids_raises.
Qed.

(** X14. The exit status is 0 or 1, and it is 0 exactly when the CSV file
    was written and the fetcher recorded no failure: input that cannot be
    loaded, an exception in the batch and a file that cannot be written all
    give 1. *)
Theorem main_exit_status_zero py_repr file out :
  (exit_status (ended_by (main py_repr file out)) = 0
   \/ exit_status (ended_by (main py_repr file out)) = 1)
  /\ (exit_status (ended_by (main py_repr file out)) = 0
      <-> exists csv st,
            csv_file (main py_repr file out) = Some csv
            /\ fetcher (main py_repr file out) = Some st
            /\ failed_requests st = []).
Proof.
  unfold main.
  destruct (load_dye_data file) as [[item_ids | e] warned] eqn:Hload.
  - destruct (fetch_dyes item_ids [] init) as [[dye_data | e] st] eqn:Hrun.
    + destruct out; cbn.
      * destruct (failed_requests st) as [| entry entries] eqn:Hfailed; cbn.
        -- split; [by left |]. split; [| done].
           intros _. eexists _, st. by rewrite Hfailed.
        -- split; [by right |]. split; [done |].
           intros (csv & st1 & _ & [= <-] & Hnil). congruence.
      * split; [by right |]. split; [done | by intros (? & ? & [=] & _)].
      * split; [by right |]. split; [done | by intros (? & ? & [=] & _)].
    + apply fetch_dyes_raises in Hrun as ->. cbn.
      split; [by right |]. split; [done | by intros (? & ? & [=] & _)].
  - apply load_dye_data_raises_status in Hload. cbn. rewrite Hload.
    split; [by right |]. split; [done | by intros (? & ? & [=] & _)].
Qed.

(** A body with a non-empty Name under "fields" and a status below 400. *)
Lemma fetch_name_answered item_id language st :
  (forall n request, exists response body fields name,
      endpoint n request = Responded response
      /\ status_code response < 400
      /\ json response = inr (JObj body)
      /\ body !! "fields" = Some (JObj fields)
      /\ fields !! "Name" = Some name
      /\ truthy name = true) ->
  exists name,
    fetch_name item_id language 0 st
    = (Ok name, count_success (attempt (mkRequest item_id language) st)).
Proof.
  intros Hall.
  destruct (Hall (sent st) (mkRequest item_id language))
    as (response & body & fields & name
        & Hget & Hcode & Hjson & Hfields & Hname & Htruthy).
  exists name.
  rewrite (fetch_name_below_400 _ _ _ _ response) by done.
  cbn zeta. rewrite Hjson. cbn [py_get]. rewrite Hfields.
  cbn [default from_option id py_get]. rewrite Hname.
  cbn [default from_option id]. by rewrite Htruthy.
Qed.

(** X15. When every request is answered at once with a name, the batch
    sends exactly one request per item and language, item by item in the
    order of the list and for each item in the order en, ja, de, fr, with
    the pacing sleep before each and no other sleep; all are counted as
    successes and the failure list stays as it was. *)
Theorem fetch_dyes_all_answered item_ids dye_data st :
  (forall n request, exists response body fields name,
      endpoint n request = Responded response
      /\ status_code response < 400
      /\ json response = inr (JObj body)
      /\ body !! "fields" = Some (JObj fields)
      /\ fields !! "Name" = Some name
      /\ truthy name = true) ->
  exists dye_data' st',
    fetch_dyes item_ids dye_data st = (Ok dye_data', st')
    /\ trace st' = trace st ++ one_request_each item_ids
    /\ total_requests st'
       = total_requests st + 4 * Z.of_nat (length item_ids)
    /\ successful_requests st'
       = successful_requests st + 4 * Z.of_nat (length item_ids)
    /\ failed_requests st' = failed_requests st.
Proof.
  intros Hall. revert dye_data st.
  induction item_ids as [| item_id item_ids IH]; intros dye_data st.
  - eexists _, _. split; [reflexivity |]. cbn.
    rewrite app_nil_r. repeat split; lia.
  - cbn [fetch_dyes]. unfold mbind at 1, Py_bind at 1.
    unfold fetch_all_languages, LANGUAGES. cbn [fetch_languages].
    unfold mbind at 1, Py_bind at 1.
    destruct (fetch_name_answered item_id "en" st Hall) as (n1 & ->).
    unfold mbind at 1, Py_bind at 1.
    destruct (fetch_name_answered item_id "ja"
                (count_success (attempt (mkRequest item_id "en") st)) Hall)
      as (n2 & ->).
    unfold mbind at 1, Py_bind at 1.
    destruct (fetch_name_answered item_id "de"
                (count_success (attempt (mkRequest item_id "ja")
                   (count_success (attempt (mkRequest item_id "en") st))))
                Hall)
      as (n3 & ->).
    unfold mbind at 1, Py_bind at 1.
    destruct (fetch_name_answered item_id "fr"
                (count_success (attempt (mkRequest item_id "de")
                   (count_success (attempt (mkRequest item_id "ja")
                      (count_success (attempt (mkRequest item_id "en") st))))))
                Hall)
      as (n4 & ->).
    cbn [mret Py_ret].
    match goal with
    | |- context [fetch_dyes item_ids ?d ?s] =>
        destruct (IH d s) as (dye_data' & st' & -> & Htr & Htot & Hsucc & Hfail)
    end.
    exists dye_data', st'. split; [reflexivity |].
    rewrite Htr, Htot, Hsucc, Hfail. cbn.
    repeat rewrite <- app_assoc. cbn.
    repeat split; lia.
Qed.

(** X16. Whenever [main] writes the CSV, the input was an array, and the
    file is the header followed by one line of five fields for each object
    of the array that has an itemID member, in the order of the array;
    elements that are not objects, if the loader got past them, give no
    line. *)
Theorem main_csv_lines py_repr file out csv :
  csv_file (main py_repr file out) = Some csv ->
  exists dyes (dye_data : list Dye),
    file = Content (JArr dyes)
    /\ map itemID dye_data = omap (member "itemID") dyes
    /\ csv = fieldnames :: map (fun dye => map (csv_field py_repr) (row dye))
                             dye_data
    /\ length csv = S (length (omap (member "itemID") dyes))
    /\ Forall (fun line => length line = 5%nat) csv.
Proof.
  intros Hcsv.
  destruct (main_written _ _ _ _ Hcsv)
    as (item_ids & dye_data & st & Hload & Hrun & _ & Hmain).
  rewrite Hmain in Hcsv. injection Hcsv as <-.
  destruct file as [| | | [| | | | | dyes |]]; try done.
  cbn [load_dye_data] in Hload.
  destruct (extract_item_ids dyes [] []) as [res warned] eqn:Hextract.
  cbn [fst] in Hload. subst res.
  destruct (extract_item_ids_returns _ _ _ _ _ Hextract) as [-> _].
  destruct (fetch_dyes_item_ids _ _ _ _ Hrun) as [Hids _].
  exists dyes, dye_data. cbn [app] in Hids.
  split; [done |]. split; [done |]. split; [done |].
  split; [by cbn; rewrite length_map, <- Hids, length_map |].
  constructor; [done |]. by apply Forall_map, Forall_true.
Qed.

End Script.

Lemma fetch_name_429_twice_then_name_witness :
  fetch_name limited_twice (JInt 5729) "en" 0 init
  = (Ok (JStr "Snow White"),
     mkState [] 3 1 3
       [ pacing; Get snow_white;
         backoff 1;
         pacing; Get snow_white;
         backoff 2;
         pacing; Get snow_white ]).
Proof.
  apply (fetch_name_429_twice_then_name limited_twice (JInt 5729) "en" init
           (status_only 429 "Too Many Requests")
           (status_only 429 "Too Many Requests")
           (named (JStr "Snow White"))
           {[ "fields" := JObj {[ "Name" := JStr "Snow White" ]} ]}
           {[ "Name" := JStr "Snow White" ]}
           (JStr "Snow White"));
    first [ reflexivity | cbn; lia ].
Defined.

Lemma fetch_name_always_500_witness :
  fetch_name (always (Responded (status_only 500 "Internal Server Error")))
    (JInt 5729) "en" 0 init
  = (Ok JNull,
     mkState [(JInt 5729, "en", "Server error 500")] 4 0 4
       [ pacing; Get snow_white;
         backoff 1;
         pacing; Get snow_white;
         backoff 2;
         pacing; Get snow_white;
         backoff 4;
         pacing; Get snow_white ]).
Proof.
  apply (fetch_name_always_500
           (always (Responded (status_only 500 "Internal Server Error")))
           (JInt 5729) "en" init).
  intros k. exists (status_only 500 "Internal Server Error").
  split; reflexivity.
Defined.

Lemma fetch_name_404_witness :
  fetch_name (always (Responded (status_only 404 "Not Found")))
    (JInt 5729) "en" 0 init
  = (Ok JNull,
     mkState [(JInt 5729, "en", "Not found")] 1 0 1
       [ pacing; Get snow_white ]).
Proof.
  apply (fetch_name_404 (always (Responded (status_only 404 "Not Found")))
           (JInt 5729) "en" 0 init (status_only 404 "Not Found"));
    reflexivity.
Defined.

Lemma fetch_name_always_timeout_witness :
  fetch_name (always Timeout) (JInt 5729) "en" 0 init
  = (Ok JNull,
     mkState [(JInt 5729, "en", "Timeout")] 4 0 4
       [ pacing; Get snow_white;
         pacing; Get snow_white;
         pacing; Get snow_white;
         pacing; Get snow_white ]).
Proof.
  apply (fetch_name_always_timeout (always Timeout) (JInt 5729) "en" init).
  intros k. reflexivity.
Defined.

Lemma fetch_name_empty_name_witness :
  fetch_name (always (Responded (named (JStr "")))) (JInt 5729) "en" 0 init
  = (Ok JNull,
     mkState [(JInt 5729, "en", "Missing Name field")] 1 0 1
       [ pacing; Get snow_white ]).
Proof.
  apply (fetch_name_empty_name (always (Responded (named (JStr ""))))
           (JInt 5729) "en" 0 init (named (JStr ""))
           {[ "fields" := JObj {[ "Name" := JStr "" ]} ]}
           {[ "Name" := JStr "" ]});
    first [ reflexivity | cbn; lia | left; reflexivity ].
Defined.

Lemma fetch_dyes_one_record_each_witness :
  exists dye_data st',
    fetch_dyes english_only [JInt 5729; JInt 5730] [] init = (Ok dye_data, st')
    /\ length dye_data = 2%nat
    /\ map itemID dye_data = [JInt 5729; JInt 5730]
    /\ Forall complete dye_data.
Proof.
  eexists _, _.
  refine ((fun Hrun =>
             conj Hrun
               (fetch_dyes_one_record_each english_only
                  [JInt 5729; JInt 5730] init _ _ Hrun)) _).
  vm_compute. reflexivity.
Defined.

Lemma three_entries_objects : Forall is_object three_entries.
Proof. repeat constructor; eexists; reflexivity. Defined.

Lemma load_dye_data_objects_witness :
  load_dye_data (Content (JArr three_entries))
  = (Ok [JInt 5729; JInt 5730], [JObj {[ "name" := JStr "Soot Black" ]}]).
Proof.
  exact (load_dye_data_objects three_entries three_entries_objects).
Defined.

(** An array with an element that is not an object: [in] raises
    [TypeError] on [None], so the element is not skipped and the elements
    after it are not read; the statement of C9 for every array fails. *)
Lemma load_dye_data_null_element :
  load_dye_data (Content (JArr [JNull; JObj {[ "itemID" := JInt 5729 ]}]))
  = (Raise TypeError, [])
  /\ ~ (forall dyes : list JSON,
          load_dye_data (Content (JArr dyes))
          = (Ok (omap (member "itemID") dyes),
             filter (fun dye => ~ is_Some (member "itemID" dye)) dyes)).
Proof.
  split; [reflexivity |].
  intros Hall.
  specialize (Hall [JNull; JObj {[ "itemID" := JInt 5729 ]}]).
  discriminate Hall.
Qed.

Lemma main_csv_witness :
  exists (dye_data : list Dye) (st : State),
    fetch_dyes english_only [JInt 5729; JInt 5730] [] init = (Ok dye_data, st)
    /\ map itemID dye_data = [JInt 5729; JInt 5730]
    /\ [ ["itemID"; "English Name"; "Japanese Name"; "German Name";
          "French Name"];
         ["5729"; "Snow White"; ""; ""; ""];
         ["5730"; "Snow White"; ""; ""; ""] ]
       = ["itemID"; "English Name"; "Japanese Name"; "German Name";
          "French Name"]
         :: map (fun dye =>
                   [ csv_field no_repr (itemID dye);
                     name_column no_repr dye "en";
                     name_column no_repr dye "ja";
                     name_column no_repr dye "de";
                     name_column no_repr dye "fr" ])
              dye_data.
Proof.
  apply (main_csv english_only no_repr three_entries Writable).
  - exact three_entries_objects.
  - vm_compute. reflexivity.
Defined.

Lemma main_exit_status_witness :
  let run :=
    main english_only no_repr (Content (JArr three_entries)) Writable in
  exists st,
    fetcher run = Some st
    /\ ended_by run
       = SystemExit (match failed_requests st with [] => 0 | _ :: _ => 1 end)
    /\ exit_status (ended_by run)
       = match failed_requests st with [] => 0 | _ :: _ => 1 end.
Proof.
  eapply (main_exit_status english_only no_repr
            (Content (JArr three_entries)) Writable).
  vm_compute. reflexivity.
Defined.

(** ** Runs of the script *)

(** The input [[{"itemID": 1}]] with a name for English only gives the
    line 1,Snow White,,, and the exit status 1. *)
Example main_english_only :
  let run := main english_only no_repr
               (Content (JArr [JObj {[ "itemID" := JInt 1 ]}])) Writable in
  csv_file run
  = Some [ ["itemID"; "English Name"; "Japanese Name"; "German Name";
            "French Name"];
           ["1"; "Snow White"; ""; ""; ""] ]
  /\ exit_status (ended_by run) = 1
  /\ (failed_requests <$> fetcher run)
     = Some [ (JInt 1, "ja", "Missing Name field");
              (JInt 1, "de", "Missing Name field");
              (JInt 1, "fr", "Missing Name field") ].
Proof. vm_compute. done. Qed.

(** With a name for every request there is no failure and the exit status
    is 0. *)
Example main_all_named :
  let run := main (always (Responded (named (JStr "Snow White")))) no_repr
               (Content (JArr three_entries)) Writable in
  exit_status (ended_by run) = 0
  /\ (failed_requests <$> fetcher run) = Some []
  /\ (total_requests <$> fetcher run) = Some 8
  /\ (successful_requests <$> fetcher run) = Some 8.
Proof. vm_compute. done. Qed.

(** A 2xx body that is not a dict ends the run with an [AttributeError]
    before anything is written. *)
Example main_unreadable_body :
  let run := main (always (Responded (mkResponse 200 "OK" "" (inr (JArr [])))))
               no_repr (Content (JArr three_entries)) Writable in
  ended_by run = AttributeError /\ csv_file run = None.
Proof. vm_compute. done. Qed.

(** Input that cannot be loaded ends the run with [sys.exit(1)]. *)
Example main_no_input :
  forall file, file = NoFile \/ file = Unreadable \/ file = NotJSON
               \/ file = Content (JObj ∅) ->
  ended_by (main english_only no_repr file Writable) = SystemExit 1.
Proof. intros file [-> | [-> | [-> | ->]]]; reflexivity. Qed.

(** ** Instances of the further properties *)

Lemma fetch_name_always_429_witness :
  fetch_name (always (Responded (status_only 429 "Too Many Requests")))
    (JInt 5729) "en" 0 init
  = (Ok JNull,
     mkState [(JInt 5729, "en", "Rate limit")] 4 0 4
       [ pacing; Get snow_white; backoff 1;
         pacing; Get snow_white; backoff 2;
         pacing; Get snow_white; backoff 4;
         pacing; Get snow_white ]).
Proof.
  apply (fetch_name_always_429
           (always (Responded (status_only 429 "Too Many Requests")))
           (JInt 5729) "en" init).
  intros k. exists (status_only 429 "Too Many Requests").
  split; reflexivity.
Defined.

Lemma fetch_name_transport_error_witness :
  fetch_name (always (RequestException "Connection refused"))
    (JInt 5729) "en" 0 init
  = (Ok JNull,
     mkState [(JInt 5729, "en", "Connection refused")] 1 0 1
       [pacing; Get snow_white]).
Proof.
  apply (fetch_name_transport_error
           (always (RequestException "Connection refused"))
           (JInt 5729) "en" 0 init "Connection refused").
  reflexivity.
Defined.

Lemma fetch_name_client_error_witness :
  fetch_name (always (Responded (status_only 403 "Forbidden")))
    (JInt 5729) "en" 0 init
  = (Ok JNull,
     mkState
       [(JInt 5729, "en",
         "403 Client Error: Forbidden for url: "
           +:+ "https://v2.xivapi.com/api/sheet/Item/5729")]
       1 0 1 [pacing; Get snow_white]).
Proof.
  apply (fetch_name_client_error
           (always (Responded (status_only 403 "Forbidden")))
           (JInt 5729) "en" 0 init (status_only 403 "Forbidden"));
    first [ reflexivity | cbn; lia ].
Defined.

Lemma fetch_name_first_try_witness :
  fetch_name (always (Responded (named (JStr "Snow White"))))
    (JInt 5729) "en" 0 init
  = (Ok (JStr "Snow White"), mkState [] 1 1 1 [pacing; Get snow_white]).
Proof.
  apply (fetch_name_first_try
           (always (Responded (named (JStr "Snow White"))))
           (JInt 5729) "en" 0 init (named (JStr "Snow White"))
           {[ "fields" := JObj {[ "Name" := JStr "Snow White" ]} ]}
           {[ "Name" := JStr "Snow White" ]} (JStr "Snow White"));
    first [ reflexivity | cbn; lia ].
Defined.

Lemma fetch_name_unreadable_body_witness :
  fetch_name (always (Responded (mkResponse 200 "OK" "" (inr (JArr [])))))
    (JInt 5729) "en" 0 init
  = (Raise AttributeError, mkState [] 1 0 1 [pacing; Get snow_white]).
Proof.
  apply (fetch_name_unreadable_body
           (always (Responded (mkResponse 200 "OK" "" (inr (JArr [])))))
           (JInt 5729) "en" 0 init
           (mkResponse 200 "OK" "" (inr (JArr []))) (JArr []));
    first [ reflexivity | cbn; lia | left; discriminate ].
Defined.

Lemma fetch_name_pacing_witness :
  exists res st' added,
    fetch_name limited_twice (JInt 5729) "en" 0 init = (res, st')
    /\ trace st' = trace init ++ added
    /\ paced (trace st')
    /\ forall (i : nat) request,
         trace st' !! i = Some (Get request) ->
         exists j : nat, i = S j /\ trace st' !! j = Some pacing.
Proof.
  apply (fetch_name_pacing limited_twice (JInt 5729) "en" 0 init).
  constructor.
Defined.

Lemma fetch_dyes_accounting_witness :
  exists dye_data st',
    fetch_dyes english_only [JInt 5729; JInt 5730] [] init
    = (Ok dye_data, st')
    /\ successful_requests st' + Z.of_nat (length (failed_requests st'))
       = 0 + 0 + 4 * 2
    /\ 4 * 2 <= total_requests st' - 0 <= 16 * 2
    /\ [] `prefix_of` failed_requests st'.
Proof.
  eexists _, _.
  refine ((fun Hrun =>
             conj Hrun
               (fetch_dyes_accounting english_only
                  [JInt 5729; JInt 5730] [] init _ _ Hrun)) _).
  vm_compute. reflexivity.
Defined.

Lemma fetch_dyes_no_failure_iff_named_witness :
  exists dye_data st',
    fetch_dyes (always (Responded (named (JStr "Snow White"))))
      [JInt 5729; JInt 5730] [] init
    = (Ok dye_data, st')
    /\ (failed_requests st' = [] <-> Forall all_named dye_data).
Proof.
  eexists _, _.
  refine ((fun Hrun =>
             conj Hrun
               (fetch_dyes_no_failure_iff_named
                  (always (Responded (named (JStr "Snow White"))))
                  [JInt 5729; JInt 5730] init _ _ Hrun)) _).
  vm_compute. reflexivity.
Defined.

Lemma main_pacing_witness :
  exists st,
    fetcher (main english_only no_repr (Content (JArr three_entries)) Writable)
    = Some st
    /\ paced (trace st)
    /\ forall (i : nat) request,
         trace st !! i = Some (Get request) ->
         exists j : nat, i = S j /\ trace st !! j = Some pacing.
Proof.
  eexists.
  refine ((fun Hfetcher =>
             conj Hfetcher
               (main_pacing english_only no_repr
                  (Content (JArr three_entries)) Writable _ Hfetcher)) _).
  vm_compute. reflexivity.
Defined.

(** A list without the string "itemID" and a string without that
    substring are warned about like an object without the key. *)
Lemma load_dye_data_returns_witness :
  [JInt 5729] = omap (member "itemID") mixed_entries
  /\ [JArr []; JStr "Rose Pink"]
     = filter (fun dye => ~ is_Some (member "itemID" dye)) mixed_entries
  /\ (length [JInt 5729] + length [JArr []; JStr "Rose Pink"])%nat
     = length mixed_entries.
Proof.
  apply (load_dye_data_returns mixed_entries).
  reflexivity.
Defined.


Lemma fetch_dyes_all_answered_witness :
  exists dye_data' st',
    fetch_dyes (always (Responded (named (JStr "Snow White"))))
      [JInt 5729; JInt 5730] [] init
    = (Ok dye_data', st')
    /\ trace st'
       = [ pacing; Get (mkRequest (JInt 5729) "en");
           pacing; Get (mkRequest (JInt 5729) "ja");
           pacing; Get (mkRequest (JInt 5729) "de");
           pacing; Get (mkRequest (JInt 5729) "fr");
           pacing; Get (mkRequest (JInt 5730) "en");
           pacing; Get (mkRequest (JInt 5730) "ja");
           pacing; Get (mkRequest (JInt 5730) "de");
           pacing; Get (mkRequest (JInt 5730) "fr") ]
    /\ total_requests st' = 0 + 4 * 2
    /\ successful_requests st' = 0 + 4 * 2
    /\ failed_requests st' = [].
Proof.
  apply (fetch_dyes_all_answered
           (always (Responded (named (JStr "Snow White"))))
           [JInt 5729; JInt 5730] [] init).
  intros n request.
  exists (named (JStr "Snow White")),
    {[ "fields" := JObj {[ "Name" := JStr "Snow White" ]} ]},
    {[ "Name" := JStr "Snow White" ]}, (JStr "Snow White").
  repeat split; first [ reflexivity | cbn; lia ].
Defined.

Lemma main_csv_lines_witness :
  exists dyes (dye_data : list Dye),
    Content (JArr mixed_entries) = Content (JArr dyes)
    /\ map itemID dye_data = omap (member "itemID") dyes
    /\ [ fieldnames; ["5729"; "Snow White"; ""; ""; ""] ]
       = fieldnames :: map (fun dye => map (csv_field no_repr) (row dye))
                         dye_data
    /\ length [ fieldnames; ["5729"; "Snow White"; ""; ""; ""] ]
       = S (length (omap (member "itemID") dyes))
    /\ Forall (fun line => length line = 5%nat)
         [ fieldnames; ["5729"; "Snow White"; ""; ""; ""] ].
Proof.
  apply (main_csv_lines english_only no_repr
           (Content (JArr mixed_entries)) Writable).
  vm_compute. reflexivity.
Defined.
